(** * Autoflow: a Blender add-on that remeshes the active object with QuadriFlow

    A shallow embedding of [autoflow/utils.py] and [autoflow/operators.py].
    Python values that the add-on reads dynamically (preferences, report
    types, operator results) are kept as a small universe [PyVal]; code that
    can raise returns a [Res]; code that touches Blender's scene, the report
    list or launches processes runs in the state-and-exception monad [M] over
    a [World], with the outside (platform, PATH, file system, Blender's
    import and export operators) supplied by a [Host]. *)

From Stdlib Require Import ZArith List String Ascii Bool Lia DecimalString.
From stdpp Require Import gmap strings list.

(** ** Python values and exceptions *)

Inductive PyVal : Type :=
| VNone
| VBool (b : bool)
| VInt (z : Z)
| VStr (s : string)
| VSet (items : list string).

Inductive Exn : Type :=
| TypeError
| AttributeError
| FileNotFoundError
| PermissionError
| OSError
| SubprocessError
| CalledProcessError
| TimeoutExpired.

(** [except subprocess.SubprocessError] catches the class and its two
    subclasses. *)
Definition isinstance_SubprocessError (e : Exn) : bool :=
  match e with
  | SubprocessError | CalledProcessError | TimeoutExpired => true
  | _ => false
  end.

Definition isinstance_PermissionError (e : Exn) : bool :=
  match e with
  | PermissionError => true
  | _ => false
  end.

Inductive Res (A : Type) : Type :=
| Ok (a : A)
| Raise (e : Exn).
Arguments Ok {A} a.
Arguments Raise {A} e.

(** [s * n] on a Python string: [n] copies, none when [n <= 0].  A [bool]
    operand is the integer 0 or 1. *)
Definition py_str_mul (s : string) (n : Z) : string :=
  String.concat "" (repeat s (Z.to_nat n)).

(** [str(n)] on a Python integer. *)
Definition py_str_int (n : Z) : string :=
  NilZero.string_of_int (Z.to_int n).

(** [s.lower()] on ASCII letters. *)
Definition ascii_lower (c : ascii) : ascii :=
  let n := nat_of_ascii c in
  if (65 <=? n)%nat && (n <=? 90)%nat then ascii_of_nat (n + 32) else c.

Fixpoint py_lower (s : string) : string :=
  match s with
  | EmptyString => EmptyString
  | String c s' => String (ascii_lower c) (py_lower s')
  end.

(** ** [pathlib.Path], POSIX flavour *)

(** [pathlib.Path] is [PosixPath] everywhere but on win32, where it is
    [WindowsPath], with drives, two separators and other rules for
    [joinpath].  The module below is the POSIX flavour only; what is proved
    of the text of a path is stated for hosts on which [pathlib_is_posix]
    holds. *)

Module Path.

Record t : Type := mk { root : string; parts : list string }.

#[global] Instance t_eq_dec : EqDecision t.
Proof. solve_decision. Defined.

Fixpoint split_slash (s cur : string) : list string :=
  match s with
  | EmptyString => [cur]
  | String c s' =>
      if Ascii.eqb c "/" then cur :: split_slash s' ""
      else split_slash s' (cur +:+ String c "")
  end.

(** Exactly two leading slashes are kept; one, or three and more,
    collapse to one. *)
Definition parse_root (s : string) : string :=
  match s with
  | String "/" (String "/" (String "/" _)) => "/"
  | String "/" (String "/" _) => "//"
  | String "/" _ => "/"
  | _ => ""
  end.

Definition is_part (x : string) : bool :=
  negb (String.eqb x "") && negb (String.eqb x ".").

Definition of_string (s : string) : t :=
  mk (parse_root s) (filter (fun x => is_part x = true) (split_slash s "")).

Definition to_string (p : t) : string :=
  match parts p with
  | [] => if String.eqb (root p) "" then "." else root p
  | _ => root p +:+ String.concat "/" (parts p)
  end.

(** [p.joinpath(s)] and [p / s]: an absolute [s] replaces [p]. *)
Definition joinpath (p : t) (s : string) : t :=
  let q := of_string s in
  if String.eqb (root q) "" then mk (root p) (parts p ++ parts q) else q.

Definition name (p : t) : string := List.last (parts p) "".

Definition parent (p : t) : t := mk (root p) (removelast (parts p)).

(** Index of the last dot of [s], counted from the left. *)
Fixpoint rfind_dot (s : string) (i : nat) (found : option nat) : option nat :=
  match s with
  | EmptyString => found
  | String c s' =>
      rfind_dot s' (S i) (if Ascii.eqb c "." then Some i else found)
  end.

(** The dot that starts the suffix: the last one, when it is neither the
    first nor the last character of the name. *)
Definition suffix_index (nm : string) : option nat :=
  match rfind_dot nm 0 None with
  | Some i =>
      if (0 <? i)%nat && (i <? String.length nm - 1)%nat then Some i else None
  | None => None
  end.

Definition suffix (p : t) : string :=
  let nm := name p in
  match suffix_index nm with
  | Some i => substring i (String.length nm - i) nm
  | None => ""
  end.

Definition stem (p : t) : string :=
  let nm := name p in
  match suffix_index nm with
  | Some i => substring 0 i nm
  | None => nm
  end.

End Path.

(** [Path(v)]: only a string is accepted. *)
Definition py_Path (v : PyVal) : Res Path.t :=
  match v with
  | VStr s => Ok (Path.of_string s)
  | _ => Raise TypeError
  end.

(** [max(v, 0)]: ordering a non-number against an integer raises.  A [bool]
    is ordered as the integer 0 or 1. *)
Definition py_max0 (v : PyVal) : Res Z :=
  match v with
  | VInt z => Ok (Z.max z 0)
  | VBool b => Ok (Z.max (Z.b2z b) 0)
  | _ => Raise TypeError
  end.

(** [a == b]: numbers by value (a [bool] is 0 or 1), strings by content,
    sets by mutual inclusion; values of unrelated types differ. *)
Definition py_eq (a b : PyVal) : bool :=
  match a, b with
  | VNone, VNone => true
  | VBool x, VBool y => Bool.eqb x y
  | VBool x, VInt y | VInt y, VBool x => Z.eqb (Z.b2z x) y
  | VInt x, VInt y => Z.eqb x y
  | VStr x, VStr y => String.eqb x y
  | VSet x, VSet y =>
      forallb (fun i => existsb (String.eqb i) y) x &&
      forallb (fun i => existsb (String.eqb i) x) y
  | _, _ => false
  end.


(** ** Blender data: meshes, objects, scenes *)

(** A mesh datablock: a vertex count, edges as vertex pairs, polygons as
    vertex loops.  As in every mesh Blender builds, each side of a polygon
    is listed among the edges. *)
Record Mesh : Type := {
  vertices : nat;
  edges : list (nat * nat);
  polygons : list (list nat)
}.

Inductive ObData : Type :=
| DataMesh (m : Mesh)
| DataOther.

(** An object of the scene.  [oid] stands for the identity of the Python
    object: [obj in objects] compares identities, not attribute values. *)
Record Object : Type := {
  oid : nat;
  name : string;
  type : string;
  mode : string;
  select : bool;
  data : ObData
}.

(** [AutoflowSettings] (properties.py), attached to the scene. *)
Record AutoflowSettings : Type := {
  flip_removal : bool;
  min_cost_flow : bool;
  require_manifold : bool;
  resolution : Z;
  sharp_preserving : bool
}.

Record Scene : Type := {
  objects : list Object;
  active : option nat;
  autoflow : AutoflowSettings
}.

(** What the add-on does to the outside, in order. *)
Inductive Event : Type :=
| EvPrint (msg : string)
| EvPrintExn (e : Exn)
| EvTempDirCreate (dir : string)
| EvTempDirCleanup (dir : string)
| EvExport (filepath : string) (use_selection use_triangles : bool)
| EvSpawn (cmd : list string) (timeout : option Z)
| EvImport (filepath : string)
| EvPropsDialog.

(** [bpy.context] together with the operator's report list and the trace of
    outside effects.  [addons] is [user_preferences.addons]: the enabled
    add-ons, each with the preferences that have been stored for it. *)
Record World : Type := {
  addons : gmap string (gmap string PyVal);
  scene : Scene;
  reports : list (list string * string);
  trace : list Event
}.

(** What Blender's import and export operators see and may change of a
    scene: its objects and which of them is active. *)
Definition SceneObjects : Type := (list Object * option nat)%type.

Inductive ProcOutcome : Type :=
| Exited (code : Z)
| LaunchFailed (e : Exn).

(** The outside of the add-on at one invocation. *)
Record Host : Type := {
  sys_platform : string;
  spawn : list string -> option Z -> ProcOutcome;
  path_exists : string -> bool;
  mkdtemp : string;
  export_scene_obj :
    string -> bool -> bool -> SceneObjects -> Res unit * SceneObjects;
  import_scene_obj : string -> SceneObjects -> Res unit * SceneObjects
}.

Definition set_scene (sc : Scene) (w : World) : World :=
  {| addons := addons w; scene := sc; reports := reports w; trace := trace w |}.

Definition set_objects (os : list Object) (sc : Scene) : Scene :=
  {| objects := os; active := active sc; autoflow := autoflow sc |}.

Definition set_active (a : option nat) (sc : Scene) : Scene :=
  {| objects := objects sc; active := a; autoflow := autoflow sc |}.

Definition scene_objects (sc : Scene) : SceneObjects := (objects sc, active sc).

Definition set_scene_objects (so : SceneObjects) (sc : Scene) : Scene :=
  {| objects := so.1; active := so.2; autoflow := autoflow sc |}.

Definition set_select (b : bool) (o : Object) : Object :=
  {| oid := oid o; name := name o; type := type o; mode := mode o;
     select := b; data := data o |}.

Definition add_report (r : list string * string) (w : World) : World :=
  {| addons := addons w; scene := scene w; reports := reports w ++ [r];
     trace := trace w |}.

Definition add_event (e : Event) (w : World) : World :=
  {| addons := addons w; scene := scene w; reports := reports w;
     trace := trace w ++ [e] |}.

(** ** The state-and-exception monad *)

Definition M (A : Type) : Type := World -> Res A * World.

#[global] Instance M_ret : MRet M := fun A a w => (Ok a, w).

#[global] Instance M_bind : MBind M := fun A B k m w =>
  match m w with
  | (Ok a, w') => k a w'
  | (Raise e, w') => (Raise e, w')
  end.

Definition raise {A : Type} (e : Exn) : M A := fun w => (Raise e, w).

Definition lift {A : Type} (r : Res A) : M A := fun w => (r, w).

Definition get_world : M World := fun w => (Ok w, w).

Definition modify (f : World -> World) : M unit := fun w => (Ok tt, f w).

Definition emit (e : Event) : M unit := modify (add_event e).

Definition print (msg : string) : M unit := emit (EvPrint msg).

(** [try: body / except ...: handler / else: orelse].  [handler e] is [None]
    when no [except] clause matches [e]. *)
Definition try_except_else {A B : Type} (body : M A)
    (handler : Exn -> option (M B)) (orelse : A -> M B) : M B := fun w =>
  match body w with
  | (Ok a, w') => orelse a w'
  | (Raise e, w') =>
      match handler e with
      | Some hd => hd w'
      | None => (Raise e, w')
      end
  end.

(** ** bmesh: the adjacency structure built from a mesh

    [bmesh.new()], [from_mesh] and the [is_manifold] attributes belong to
    Blender.  An edge knows the faces around it, a vertex knows the edges
    around it; [is_manifold] is computed from that, as Blender's
    [BM_edge_is_manifold] and [BM_vert_is_manifold] do. *)

Record BMEdge : Type := {
  e_verts : nat * nat;
  e_link_faces : list nat
}.

Record BMVert : Type := {
  v_index : nat;
  v_link_edges : list BMEdge
}.

Record BMesh : Type := {
  bm_edges : list BMEdge;
  bm_verts : list BMVert
}.

(** The sides of a polygon, closing the loop. *)
Definition poly_sides (p : list nat) : list (nat * nat) :=
  match p with
  | [] => []
  | v0 :: rest => zip p (rest ++ [v0])
  end.

Definition same_edge (a b : nat * nat) : bool :=
  (Nat.eqb a.1 b.1 && Nat.eqb a.2 b.2) || (Nat.eqb a.1 b.2 && Nat.eqb a.2 b.1).

Definition edge_has_vert (v : nat) (e : nat * nat) : bool :=
  Nat.eqb e.1 v || Nat.eqb e.2 v.

(** Indices of the polygons that have [e] as a side. *)
Definition faces_of_edge (m : Mesh) (e : nat * nat) : list nat :=
  map fst
    (List.filter (fun ip => existsb (same_edge e) (poly_sides ip.2))
       (zip (seq 0 (length (polygons m))) (polygons m))).

Definition bm_from_mesh (m : Mesh) : BMesh :=
  let es :=
    map (fun e => {| e_verts := e; e_link_faces := faces_of_edge m e |})
      (edges m) in
  {| bm_edges := es;
     bm_verts :=
       map (fun v =>
              {| v_index := v;
                 v_link_edges :=
                   List.filter (fun e => edge_has_vert v (e_verts e)) es |})
         (seq 0 (vertices m)) |}.

(** An edge is manifold when exactly two faces meet at it. *)
Definition BM_edge_is_manifold (e : BMEdge) : bool :=
  Nat.eqb (length (e_link_faces e)) 2.

Definition BM_edge_is_boundary (e : BMEdge) : bool :=
  Nat.eqb (length (e_link_faces e)) 1.

(** The faces met around a list of edges, each once. *)
Definition fan_faces (es : list BMEdge) : list nat :=
  remove_dups (flat_map e_link_faces es).

(** The faces around a vertex. *)
Definition vert_link_faces (v : BMVert) : list nat :=
  fan_faces (v_link_edges v).

(** One round of the walk around the fan: every edge that touches a face
    already reached hands over the faces on its other side. *)
Definition fan_step (es : list BMEdge) (seen : list nat) : list nat :=
  remove_dups
    (seen ++
     flat_map (fun e =>
                 if existsb (fun f => bool_decide (f ∈ seen)) (e_link_faces e)
                 then e_link_faces e else [])
       es).

Fixpoint fan_region (fuel : nat) (es : list BMEdge) (seen : list nat)
  : list nat :=
  match fuel with
  | O => seen
  | S k => fan_region k es (fan_step es seen)
  end.

(** Where the walk starts: at a boundary edge when there is one (the last
    met), at the first edge otherwise. *)
Definition fan_start (es : list BMEdge) : list nat :=
  match List.filter BM_edge_is_boundary es with
  | [] => match es with
          | e :: _ => take 1 (e_link_faces e)
          | [] => []
          end
  | b :: bs => take 1 (e_link_faces (List.last bs b))
  end.

(** A vertex is not manifold when it is loose, lies on a wire edge or on an
    edge with more than two faces, has more than two boundary edges, or
    joins two fans of faces that touch only at the vertex.  The walk is given
    as many rounds as there are face corners around the vertex, which is
    enough to reach every face it can reach. *)
Definition BM_vert_is_manifold (v : BMVert) : bool :=
  let es := v_link_edges v in
  match es with
  | [] => false
  | _ =>
      forallb (fun e => let n := length (e_link_faces e) in
                        Nat.leb 1 n && Nat.leb n 2) es
      && Nat.ltb (length (List.filter BM_edge_is_boundary es)) 3
      && Nat.eqb
           (length (fan_region (length (flat_map e_link_faces es)) es
                      (fan_start es)))
           (length (vert_link_faces v))
  end.

(** Anything with an attribute named [is_manifold]. *)
Class HasIsManifold (E : Type) : Type := is_manifold : E -> bool.

#[global] Instance BMEdge_is_manifold : HasIsManifold BMEdge :=
  BM_edge_is_manifold.

#[global] Instance BMVert_is_manifold : HasIsManifold BMVert :=
  BM_vert_is_manifold.

(** ** The manifold condition as the specification words it *)

(** "Every edge is bounded by exactly two faces." *)
Definition edge_bounded_by_two_faces (e : BMEdge) : Prop :=
  length (e_link_faces e) = 2.

(** Two faces around a vertex are neighbours when they meet at one of the
    edges of the vertex. *)
Definition fan_neighbours (es : list BMEdge) (f g : nat) : Prop :=
  exists e, e ∈ es /\ f ∈ e_link_faces e /\ g ∈ e_link_faces e.

(** "Every vertex's incident-face fan forms a single connected disk": there
    are edges at the vertex, each lies between two faces, and from any face
    around the vertex any other is reached by crossing edges of the
    vertex. *)
Definition fan_is_single_disk (v : BMVert) : Prop :=
  v_link_edges v <> [] /\
  (forall e, e ∈ v_link_edges v -> edge_bounded_by_two_faces e) /\
  (forall f g, f ∈ vert_link_faces v -> g ∈ vert_link_faces v ->
               rtc (fan_neighbours (v_link_edges v)) f g).

Definition manifold_in_the_standard_sense (m : Mesh) : Prop :=
  (forall e, e ∈ bm_edges (bm_from_mesh m) -> edge_bounded_by_two_faces e) /\
  (forall v, v ∈ bm_verts (bm_from_mesh m) -> fan_is_single_disk v).

(** A set of faces that no edge leads out of. *)
Definition fan_closed (es : list BMEdge) (seen : list nat) : Prop :=
  forall f g, f ∈ seen -> fan_neighbours es f g -> g ∈ seen.

(** ** utils.py *)

Definition package : string := "autoflow".

Definition all_elements_are_manifold {E : Type} `{HasIsManifold E}
    (elements : list E) : bool :=
  forallb is_manifold elements.

(** [bmesh.from_mesh] accepts a mesh datablock only. *)
Definition mesh_is_manifold (mesh : ObData) : Res bool :=
  match mesh with
  | DataMesh m =>
      let bmesh_obj := bm_from_mesh m in
      Ok (all_elements_are_manifold (bm_edges bmesh_obj)
          && all_elements_are_manifold (bm_verts bmesh_obj))
  | DataOther => Raise TypeError
  end.

Definition cube : Mesh :=
  {| vertices := 8;
     edges := [(0, 1); (1, 2); (2, 3); (3, 0); (4, 5); (5, 6); (6, 7); (7, 4);
               (0, 4); (1, 5); (2, 6); (3, 7)];
     polygons := [[0; 1; 2; 3]; [4; 7; 6; 5]; [0; 4; 5; 1]; [1; 5; 6; 2];
                  [2; 6; 7; 3]; [3; 7; 4; 0]] |}.

(** Three triangles around the edge (0, 1). *)
Definition three_fins : Mesh :=
  {| vertices := 5;
     edges := [(0, 1); (1, 2); (2, 0); (1, 3); (3, 0); (1, 4); (4, 0)];
     polygons := [[0; 1; 2]; [0; 1; 3]; [0; 1; 4]] |}.

(** Two tetrahedra that share the vertex 0 only. *)
Definition bow_tie : Mesh :=
  {| vertices := 7;
     edges := [(0, 1); (0, 2); (0, 3); (1, 2); (2, 3); (3, 1);
               (0, 4); (0, 5); (0, 6); (4, 5); (5, 6); (6, 4)];
     polygons := [[0; 1; 2]; [0; 2; 3]; [0; 3; 1]; [1; 3; 2];
                  [0; 4; 5]; [0; 5; 6]; [0; 6; 4]; [4; 6; 5]] |}.

(** [hasattr(obj, key)] and [getattr(obj, key)] in one: [None] has none of
    the attributes the add-on asks for. *)
Definition getattr (obj : option Object) (key : string) : option PyVal :=
  match obj with
  | None => None
  | Some o =>
      if String.eqb key "mode" then Some (VStr (mode o))
      else if String.eqb key "type" then Some (VStr (type o))
      else if String.eqb key "select" then Some (VBool (select o))
      else if String.eqb key "name" then Some (VStr (name o))
      else None
  end.

Definition object_has_properties (obj : option Object)
    (properties : list (string * PyVal)) : bool :=
  forallb (fun kv => match getattr obj kv.1 with
                     | Some v => py_eq v kv.2
                     | None => false
                     end)
    properties.

Definition object_can_be_remeshed (obj : option Object) : bool :=
  object_has_properties obj
    [("mode", VStr "OBJECT"); ("type", VStr "MESH"); ("select", VBool true)].

(** [obj in objects], on identities. *)
Definition obj_in (o : Object) (l : list Object) : bool :=
  existsb (fun o' => Nat.eqb (oid o') (oid o)) l.

Definition get_objects_in_scene (sc : Scene) (objects_to_ignore : list Object)
  : list Object :=
  List.filter (fun obj => negb (obj_in obj objects_to_ignore)) (objects sc).

Definition get_selected_objects_in_scene (sc : Scene)
    (objects_to_ignore : list Object) : list Object :=
  List.filter select (get_objects_in_scene sc objects_to_ignore).

Definition select_only_objects_in_scene (objs : list Object) (sc : Scene)
  : Scene :=
  set_objects (map (fun obj => set_select (obj_in obj objs) obj) (objects sc))
    sc.

Definition get_quadriflow_output_path (input_path : Path.t) : Path.t :=
  let output_name :=
    String.concat ""
      [Path.stem input_path; "_remeshed"; Path.suffix input_path] in
  Path.joinpath (Path.parent input_path) output_name.

Definition get_addon_preferences (w : World) (addon_name : string)
  : gmap string PyVal :=
  match addons w !! addon_name with
  | Some preferences => preferences
  | None => ∅
  end.

Definition get_addon_preference (w : World) (addon_name preference : string)
    (default : PyVal) : PyVal :=
  let addon_preferences := get_addon_preferences w addon_name in
  match addon_preferences !! preference with
  | Some v => v
  | None => default
  end.

Definition get_quadriflow_path_from_addon_prefs (w : World) : Res Path.t :=
  py_Path (get_addon_preference w package "quadriflow_path" (VStr "")).

Definition get_quadriflow_timeout_from_addon_prefs (w : World) : Res Z :=
  let timeout := get_addon_preference w package "quadriflow_timeout" (VInt 0) in
  py_max0 timeout.

Definition quadriflow_path_pref_is_set (w : World) : Res bool :=
  match get_quadriflow_path_from_addon_prefs w with
  | Ok quadriflow_path =>
      Ok (negb (bool_decide (quadriflow_path = Path.of_string "")))
  | Raise e => Raise e
  end.

(** The list literal of [remesh_with_quadriflow], once the path and the
    SAT check have been evaluated. *)
Definition quadriflow_cmd (quadriflow_path : Path.t) (sat_allowed : bool)
    (autoflow_args : AutoflowSettings) (input_path output_path : string)
  : list string :=
  [ Path.to_string quadriflow_path;
    py_str_mul "-mcf" (Z.b2z (min_cost_flow autoflow_args));
    py_str_mul "-sharp" (Z.b2z (sharp_preserving autoflow_args));
    py_str_mul (py_str_mul "-sat" (Z.b2z sat_allowed))
      (Z.b2z (flip_removal autoflow_args));
    "-i";
    input_path;
    "-o";
    output_path;
    "-f";
    py_str_int (resolution autoflow_args) ].

(** [timeout if timeout else None] *)
Definition effective_timeout (timeout : option Z) : option Z :=
  match timeout with
  | Some t => if Z.eqb t 0 then None else Some t
  | None => None
  end.

Section Addon.

Context (h : Host).

Definition os_is_linux : bool :=
  String.prefix "linux" (py_lower (sys_platform h)).

Definition os_is_windows : bool :=
  String.prefix "win" (py_lower (sys_platform h)).

Definition autoflow_is_compatible_with_os : bool :=
  os_is_linux || os_is_windows.

(** [subprocess.run(cmd, check=..., timeout=...)]; the exit code is what is
    kept of the [CompletedProcess]. *)
Definition subprocess_run (cmd : list string) (check : bool)
    (timeout : option Z) : M Z :=
  emit (EvSpawn cmd timeout);;
  match spawn h cmd timeout with
  | Exited code =>
      if check && negb (Z.eqb code 0) then raise CalledProcessError
      else mret code
  | LaunchFailed e => raise e
  end.

(** [subprocess.check_output(cmd)] *)
Definition subprocess_check_output (cmd : list string) : M Z :=
  subprocess_run cmd true None.

Definition unix_executable_is_installed (executable_command : string)
  : M bool :=
  try_except_else (subprocess_check_output ["which"; executable_command])
    (fun e => match e with
              | CalledProcessError => Some (mret false)
              | _ => None
              end)
    (fun _ => mret true).

Definition sat_flag_is_allowed : M bool :=
  if os_is_linux then
    minisat ← unix_executable_is_installed "minisat";
    if minisat : bool then unix_executable_is_installed "timeout"
    else mret false
  else mret false.

Definition remesh_with_quadriflow (input_path output_path : string)
    (autoflow_args : AutoflowSettings) (timeout : option Z) : M unit :=
  w ← get_world;
  quadriflow_path ← lift (get_quadriflow_path_from_addon_prefs w);
  sat_allowed ← sat_flag_is_allowed;
  let quadriflow_cmd :=
    quadriflow_cmd quadriflow_path sat_allowed autoflow_args
      input_path output_path in
  subprocess_run quadriflow_cmd false (effective_timeout timeout);;
  mret tt.

(** ** operators.py *)

Definition msg_not_manifold : string :=
  "The 'Require Manifold Input' option is set to True, but the active object's mesh is not manifold, so the object will not be remeshed.".

Definition msg_permission_error : string :=
  "There was a permission error during QuadriFlow processing.  This may happen if Autoflow's QuadriFlow path is incorrect or inaccessible.  See Blender's system console for details.".

Definition msg_subprocess_error : string :=
  "There was a subprocess error during QuadriFlow processing.  See Blender's system console for details.".

Definition msg_path_unset : string :=
  "The QuadriFlow Path must be set in the Autoflow add-on preferences before Autoflow can be used.".

Definition msg_path_not_found : string :=
  "The QuadriFlow Path that is set in the Autoflow add-on preferences cannot be found on this computer.  Please change the QuadriFlow Path.".

Definition msg_no_mesh : string :=
  "A mesh must be selected in object mode to use Autoflow.".

Definition msg_os : string :=
  "Autoflow is compatible only with Linux and Windows.".

(** [context.active_object] *)
Definition active_object (sc : Scene) : option Object :=
  match active sc with
  | Some i => List.find (fun o => Nat.eqb (oid o) i) (objects sc)
  | None => None
  end.

(** [obj.data] and [obj.name]; on [None] the attribute is missing. *)
Definition attr_data (obj : option Object) : Res ObData :=
  match obj with
  | Some o => Ok (data o)
  | None => Raise AttributeError
  end.

Definition attr_name (obj : option Object) : Res string :=
  match obj with
  | Some o => Ok (name o)
  | None => Raise AttributeError
  end.

(** [[obj]] as a list of scene objects: [None] is no object of the scene. *)
Definition singleton_objects (obj : option Object) : list Object :=
  match obj with
  | Some o => [o]
  | None => []
  end.

Definition modify_scene (f : Scene -> Scene) : M unit :=
  modify (fun w => set_scene (f (scene w)) w).

Definition report_types : list string :=
  ["DEBUG"; "INFO"; "OPERATOR"; "PROPERTY"; "WARNING"; "ERROR";
   "ERROR_INVALID_INPUT"; "ERROR_INVALID_CONTEXT"; "ERROR_OUT_OF_MEMORY"].

(** [Operator.report(type, message)], Blender's: [type] is a set of report
    types; any other value is refused with a [TypeError]. *)
Definition report (ty : PyVal) (message : string) : M PyVal :=
  match ty with
  | VSet items =>
      if forallb (fun i => existsb (String.eqb i) report_types) items then
        modify (add_report (items, message));; mret VNone
      else raise TypeError
  | _ => raise TypeError
  end.

(** [with TemporaryDirectory() as d: body]: the directory is removed on
    every way out of the body. *)
Definition with_TemporaryDirectory {A : Type} (body : string -> M A) : M A :=
  fun w =>
    let d := mkdtemp h in
    match body d (add_event (EvTempDirCreate d) w) with
    | (r, w') => (r, add_event (EvTempDirCleanup d) w')
    end.

Definition bpy_ops_export_scene_obj (filepath : string)
    (use_selection use_triangles : bool) : M unit := fun w =>
  let w1 := add_event (EvExport filepath use_selection use_triangles) w in
  match export_scene_obj h filepath use_selection use_triangles
          (scene_objects (scene w1)) with
  | (r, so) => (r, set_scene (set_scene_objects so (scene w1)) w1)
  end.

Definition bpy_ops_import_scene_obj (filepath : string) : M unit := fun w =>
  let w1 := add_event (EvImport filepath) w in
  match import_scene_obj h filepath (scene_objects (scene w1)) with
  | (r, so) => (r, set_scene (set_scene_objects so (scene w1)) w1)
  end.

(** [window_manager.invoke_props_dialog(self)] *)
Definition invoke_props_dialog : M PyVal :=
  emit EvPropsDialog;; mret (VSet ["RUNNING_MODAL"]).

Definition poll (w : World) : bool :=
  match active_object (scene w) with
  | Some active_obj => String.eqb (mode active_obj) "OBJECT"
  | None => false
  end.

(** The [except] clauses of [execute], in their order. *)
Definition execute_handler (err : Exn) : option (M unit) :=
  if isinstance_PermissionError err then
    Some (emit (EvPrintExn err);;
          report (VSet ["ERROR"]) msg_permission_error;;
          mret tt)
  else if isinstance_SubprocessError err then
    Some (emit (EvPrintExn err);;
          report (VSet ["ERROR"]) msg_subprocess_error;;
          mret tt)
  else None.

(** The selection fix-up that ends [execute]. *)
Definition fix_selection (initial_objects initial_selected_objects : list Object)
  : M unit :=
  w ← get_world;
  let new_objects := get_objects_in_scene (scene w) initial_objects in
  match new_objects with
  | [] => modify_scene (select_only_objects_in_scene initial_selected_objects)
  | o :: _ =>
      modify_scene (select_only_objects_in_scene new_objects);;
      modify_scene (set_active (Some (oid (List.last new_objects o))))
  end.

(** The [try] statement of [execute]: remesh, report a caught failure, or
    else import the result. *)
Definition try_remesh_import (obj_path remeshed_path : string)
    (af : AutoflowSettings) (timeout : option Z) : M unit :=
  try_except_else
    (remesh_with_quadriflow obj_path remeshed_path af timeout)
    execute_handler
    (fun _ =>
       print "Autoflow is importing the remeshed object now.";;
       bpy_ops_import_scene_obj remeshed_path;;
       print "Autoflow finished successfully.").

(** The body of the [with] block of [execute]. *)
Definition export_remesh_import (active_obj : option Object)
    (af : AutoflowSettings) (temp_directory : string) : M unit :=
  active_name ← lift (attr_name active_obj);
  let obj_path :=
    Path.joinpath (Path.of_string temp_directory) (active_name +:+ ".obj") in
  print "Autoflow is exporting the active object for remeshing now.";;
  bpy_ops_export_scene_obj (Path.to_string obj_path) true true;;
  print "Autoflow is remeshing the active object now.  This may take a while.";;
  let remeshed_path := get_quadriflow_output_path obj_path in
  w ← get_world;
  timeout ← lift (get_quadriflow_timeout_from_addon_prefs w);
  try_remesh_import (Path.to_string obj_path) (Path.to_string remeshed_path)
    af (Some timeout).

(** [require_manifold and not mesh_is_manifold(active_obj.data)] *)
Definition manifold_check_fails (active_obj : option Object)
    (af : AutoflowSettings) : Res bool :=
  if require_manifold af then
    match attr_data active_obj with
    | Ok mesh =>
        match mesh_is_manifold mesh with
        | Ok manifold => Ok (negb manifold)
        | Raise e => Raise e
        end
    | Raise e => Raise e
    end
  else Ok false.

Definition execute : M PyVal :=
  w ← get_world;
  let active_obj := active_object (scene w) in
  let af := autoflow (scene w) in
  refused ← lift (manifold_check_fails active_obj af);
  if refused : bool then
    report (VSet ["ERROR"]) msg_not_manifold;;
    mret (VSet ["FINISHED"])
  else
    let initial_objects := get_objects_in_scene (scene w) [] in
    let initial_selected_objects := get_selected_objects_in_scene (scene w) [] in
    modify_scene (select_only_objects_in_scene (singleton_objects active_obj));;
    with_TemporaryDirectory (export_remesh_import active_obj af);;
    fix_selection initial_objects initial_selected_objects;;
    mret (VSet ["FINISHED"]).

Definition pre_execution_error_message (w : World) : Res string :=
  match quadriflow_path_pref_is_set w with
  | Raise e => Raise e
  | Ok false => Ok msg_path_unset
  | Ok true =>
      match get_quadriflow_path_from_addon_prefs w with
      | Raise e => Raise e
      | Ok quadriflow_path =>
          if negb (path_exists h (Path.to_string quadriflow_path)) then
            Ok msg_path_not_found
          else if negb (object_can_be_remeshed (active_object (scene w))) then
            Ok msg_no_mesh
          else if negb autoflow_is_compatible_with_os then Ok msg_os
          else Ok ""
      end
  end.

(** A string is true when it is not empty. *)
Definition py_truthy_str (s : string) : bool := negb (String.eqb s "").

Definition invoke : M PyVal :=
  w ← get_world;
  error_message ← lift (pre_execution_error_message w);
  if py_truthy_str error_message then report (VStr "ERROR") error_message
  else invoke_props_dialog.

End Addon.

(** ** Sample hosts and worlds *)

Definition default_settings : AutoflowSettings :=
  {| flip_removal := false; min_cost_flow := false; require_manifold := false;
     resolution := 1000; sharp_preserving := false |}.

(** The defaults, with [require_manifold] switched on. *)
Definition strict_settings : AutoflowSettings :=
  {| flip_removal := false; min_cost_flow := false; require_manifold := true;
     resolution := 1000; sharp_preserving := false |}.

Definition cube_object : Object :=
  {| oid := 1; name := "Cube"; type := "MESH"; mode := "OBJECT";
     select := true; data := DataMesh cube |}.

Definition lamp_object : Object :=
  {| oid := 2; name := "Lamp"; type := "LAMP"; mode := "OBJECT";
     select := true; data := DataOther |}.

Definition fins_object : Object :=
  {| oid := 3; name := "Fins"; type := "MESH"; mode := "OBJECT";
     select := false; data := DataMesh three_fins |}.

Definition remeshed_object : Object :=
  {| oid := 7; name := "Cube_remeshed"; type := "MESH"; mode := "OBJECT";
     select := true; data := DataMesh cube |}.

Definition sample_prefs : gmap string PyVal :=
  <["quadriflow_path" := VStr "/opt/quadriflow"]>
    (<["quadriflow_timeout" := VInt 30]> ∅).

Definition sample_world (active_oid : nat) (af : AutoflowSettings) : World :=
  {| addons := <[package := sample_prefs]> ∅;
     scene := {| objects := [cube_object; lamp_object; fins_object];
                 active := Some active_oid; autoflow := af |};
     reports := [];
     trace := [] |}.

(** A world in which the add-on has no stored preferences at all. *)
Definition fresh_world : World :=
  {| addons := ∅;
     scene := {| objects := [cube_object]; active := Some 1;
                 autoflow := default_settings |};
     reports := [];
     trace := [] |}.

(** Blender's importer deselects everything and links the new object,
    selected. *)
Definition sample_import (filepath : string) (so : SceneObjects)
  : Res unit * SceneObjects :=
  (Ok tt, (map (set_select false) so.1 ++ [remeshed_object], so.2)).

Definition is_which (cmd : list string) : bool :=
  match cmd with
  | c :: _ => String.eqb c "which"
  | [] => false
  end.

(** A Linux machine with both helpers installed; QuadriFlow exits with
    [quadriflow_outcome]. *)
Definition linux_host (quadriflow_outcome : ProcOutcome) : Host :=
  {| sys_platform := "linux";
     spawn := fun cmd _ => if is_which cmd then Exited 0 else quadriflow_outcome;
     path_exists := fun _ => true;
     mkdtemp := "/tmp/tmpq1w2e3";
     export_scene_obj := fun _ _ _ so => (Ok tt, so);
     import_scene_obj := sample_import |}.

(** A Windows machine: no SAT helpers are looked for. *)
Definition windows_host (quadriflow_outcome : ProcOutcome) : Host :=
  {| sys_platform := "win32";
     spawn := fun _ _ => quadriflow_outcome;
     path_exists := fun _ => true;
     mkdtemp := "/tmp/tmpq1w2e3";
     export_scene_obj := fun _ _ _ so => (Ok tt, so);
     import_scene_obj := sample_import |}.

(** A Linux machine on which [which minisat] finds nothing. *)
Definition linux_host_without_minisat (quadriflow_outcome : ProcOutcome) : Host :=
  {| sys_platform := "linux";
     spawn := fun cmd _ =>
                match cmd with
                | ["which"; "minisat"] => Exited 1
                | _ => if is_which cmd then Exited 0 else quadriflow_outcome
                end;
     path_exists := fun _ => true;
     mkdtemp := "/tmp/tmpq1w2e3";
     export_scene_obj := fun _ _ _ so => (Ok tt, so);
     import_scene_obj := sample_import |}.

(** A Linux machine on which no program can be launched to look for the
    helpers: there is no [which]. *)
Definition linux_host_without_which (quadriflow_outcome : ProcOutcome) : Host :=
  {| sys_platform := "linux";
     spawn := fun cmd _ =>
                if is_which cmd then LaunchFailed FileNotFoundError
                else quadriflow_outcome;
     path_exists := fun _ => true;
     mkdtemp := "/tmp/tmpq1w2e3";
     export_scene_obj := fun _ _ _ so => (Ok tt, so);
     import_scene_obj := sample_import |}.

(** [pathlib.Path] is the POSIX flavour on this host: the platform is not
    win32. *)
Definition pathlib_is_posix (h : Host) : Prop := os_is_windows h = false.

(** The scene that the selection fix-up of [execute] leaves. *)
Definition fixed_scene (initial_objects initial_selected_objects : list Object)
    (sc : Scene) : Scene :=
  match get_objects_in_scene sc initial_objects with
  | [] => select_only_objects_in_scene initial_selected_objects sc
  | o :: rest =>
      set_active (Some (oid (List.last (o :: rest) o)))
        (select_only_objects_in_scene (o :: rest) sc)
  end.

(** The three flag positions of a command line. *)
Definition flag_slots (cmd : list string) : list string := take 3 (drop 1 cmd).

(** ** The drawing helper of utils.py *)

(** A layout, as far as the add-on fills it: the names of the settings it
    shows, in order. *)
Definition UILayout : Type := list string.

(** [layout.prop(af, name)] *)
Definition layout_prop (name : string) (layout : UILayout) : UILayout :=
  layout ++ [name].

(** [col.operator(idname, text=..., icon=...)]: the button that is drawn;
    no [text] leaves the caption to the operator's label. *)
Record OperatorButton : Type := {
  op_idname : string;
  op_text : option string;
  op_icon : string
}.

(** [col = layout.column()] with what [draw] puts in it. *)
Record Column : Type := {
  col_operator : OperatorButton;
  col_enabled : bool
}.

Section Drawing.

Context (h : Host).

Definition add_quadriflow_args_to_layout (layout : UILayout) : M UILayout :=
  let layout := layout_prop "min_cost_flow" layout in
  let layout := layout_prop "sharp_preserving" layout in
  allowed ← sat_flag_is_allowed h;
  let layout :=
    if allowed : bool then layout_prop "flip_removal" layout else layout in
  let layout := layout_prop "require_manifold" layout in
  let layout := layout_prop "resolution" layout in
  mret layout.

(** [AUTOFLOW_OT_remesh_dialog.draw] *)
Definition dialog_draw (layout : UILayout) : M UILayout :=
  add_quadriflow_args_to_layout layout.

(** [AUTOFLOW_PT_tools_panel.draw]: the settings first, then a column with
    the trigger.  A column is enabled unless [draw] disables it. *)
Definition tools_panel_draw (layout : UILayout) : M (UILayout * Column) :=
  layout ← add_quadriflow_args_to_layout layout;
  w ← get_world;
  is_set ← lift (quadriflow_path_pref_is_set w);
  if negb is_set then
    mret (layout,
          {| col_operator := {| op_idname := "autoflow.remesh";
                                op_text := Some "Set QuadriFlow path";
                                op_icon := "ERROR" |};
             col_enabled := false |})
  else
    quadriflow_path ← lift (get_quadriflow_path_from_addon_prefs w);
    if negb (path_exists h (Path.to_string quadriflow_path)) then
      mret (layout,
            {| col_operator := {| op_idname := "autoflow.remesh";
                                  op_text := Some "QuadriFlow path not found";
                                  op_icon := "ERROR" |};
               col_enabled := false |})
    else if negb (object_can_be_remeshed (active_object (scene w))) then
      mret (layout,
            {| col_operator := {| op_idname := "autoflow.remesh";
                                  op_text := Some "Select a mesh in object mode";
                                  op_icon := "ERROR" |};
               col_enabled := false |})
    else if negb (autoflow_is_compatible_with_os h) then
      mret (layout,
            {| col_operator := {| op_idname := "autoflow.remesh";
                                  op_text := Some "Autoflow is for Linux or Windows";
                                  op_icon := "ERROR" |};
               col_enabled := false |})
    else
      mret (layout,
            {| col_operator := {| op_idname := "autoflow.remesh";
                                  op_text := None;
                                  op_icon := "FILE_TICK" |};
               col_enabled := true |}).

End Drawing.

(** ** Vocabulary for the properties *)

(** Several events at once. *)
Definition add_events (evs : list Event) (w : World) : World :=
  {| addons := addons w; scene := scene w; reports := reports w;
     trace := trace w ++ evs |}.

(** [m] keeps to [R]: whatever world it starts in, the world it leaves is
    related to it by [R], whether it returns or raises. *)
Definition keeps {A : Type} (R : World -> World -> Prop) (m : M A) : Prop :=
  forall w, R w (m w).2.

(** Nothing but the trace changes, and the trace only grows. *)
Definition only_traces (w w' : World) : Prop :=
  addons w' = addons w /\ scene w' = scene w /\ reports w' = reports w /\
  exists evs, trace w' = trace w ++ evs.

(** The preferences and the remesh settings stay, the trace and the reports
    only grow, by at most [n] reports. *)
Definition frame (n : nat) (w w' : World) : Prop :=
  addons w' = addons w /\
  autoflow (scene w') = autoflow (scene w) /\
  (exists evs, trace w' = trace w ++ evs) /\
  (exists rs, reports w' = reports w ++ rs /\ length rs <= n).

Fixpoint has_char (c : ascii) (s : string) : bool :=
  match s with
  | EmptyString => false
  | String c' s' => Ascii.eqb c' c || has_char c s'
  end.

Definition msg_exporting : string :=
  "Autoflow is exporting the active object for remeshing now.".

Definition msg_remeshing : string :=
  "Autoflow is remeshing the active object now.  This may take a while.".

Definition msg_importing : string :=
  "Autoflow is importing the remeshed object now.".

Definition msg_finished : string := "Autoflow finished successfully.".

(** The path [execute] exports the object called [nm] to, given the
    temporary directory [d], and the path it expects the result at. *)
Definition export_path (d nm : string) : Path.t :=
  Path.joinpath (Path.of_string d) (nm +:+ ".obj").

Definition remeshed_path (d nm : string) : Path.t :=
  get_quadriflow_output_path (export_path d nm).

(** The scene with the selection narrowed to the active object, as
    [execute] has it when it exports. *)
Definition isolated (w : World) : World :=
  set_scene
    (select_only_objects_in_scene
       (singleton_objects (active_object (scene w))) (scene w)) w.

(** * Properties *)

(** ** Running the monad *)

(** Unfolds the plumbing of [M] and runs what has become concrete. *)
Ltac run_monad :=
  cbv [mbind M_bind mret M_ret get_world lift emit modify print report]; cbn.

Lemma subprocess_run_eq h cmd check timeout w :
  subprocess_run h cmd check timeout w =
  match spawn h cmd timeout with
  | Exited code =>
      (if check && negb (Z.eqb code 0) then Raise CalledProcessError
       else Ok code,
       add_event (EvSpawn cmd timeout) w)
  | LaunchFailed e => (Raise e, add_event (EvSpawn cmd timeout) w)
  end.
Proof.
  unfold subprocess_run, emit, modify, mbind, M_bind.
  destruct (spawn h cmd timeout) as [code|e]; [|reflexivity].
  destruct (check && negb (Z.eqb code 0)); reflexivity.
Qed.

(** Looking for a helper on PATH only adds a launch to the trace. *)
Lemma unix_executable_is_installed_eq h c w :
  unix_executable_is_installed h c w =
  match spawn h ["which"; c] None with
  | Exited code =>
      (Ok (Z.eqb code 0), add_event (EvSpawn ["which"; c] None) w)
  | LaunchFailed e =>
      (match e with CalledProcessError => Ok false | _ => Raise e end,
       add_event (EvSpawn ["which"; c] None) w)
  end.
Proof.
  unfold unix_executable_is_installed, try_except_else,
    subprocess_check_output.
  rewrite subprocess_run_eq.
  destruct (spawn h ["which"; c] None) as [code|e].
  - destruct (Z.eqb code 0); reflexivity.
  - destruct e; reflexivity.
Qed.

Lemma unix_executable_is_installed_frame h c w r w' :
  unix_executable_is_installed h c w = (r, w') ->
  addons w' = addons w /\ scene w' = scene w /\ reports w' = reports w.
Proof.
  rewrite unix_executable_is_installed_eq.
  destruct (spawn h ["which"; c] None); intros [= _ <-]; auto.
Qed.

Lemma sat_flag_is_allowed_frame h w r w' :
  sat_flag_is_allowed h w = (r, w') ->
  addons w' = addons w /\ scene w' = scene w /\ reports w' = reports w.
Proof.
  unfold sat_flag_is_allowed.
  destruct (os_is_linux h); [|intros [= _ <-]; auto].
  unfold mbind, M_bind.
  destruct (unix_executable_is_installed h "minisat" w) as [[[]|e] w1] eqn:E1;
    apply unix_executable_is_installed_frame in E1 as (Ha & Hs & Hr).
  - intros E2. apply unix_executable_is_installed_frame in E2 as (? & ? & ?).
    repeat split; congruence.
  - intros [= _ <-]; auto.
  - intros [= _ <-]; auto.
Qed.

(** On a machine that is not Linux nothing is looked for. *)
Lemma sat_flag_not_linux h w :
  os_is_linux h = false -> sat_flag_is_allowed h w = (Ok false, w).
Proof. unfold sat_flag_is_allowed. intros ->. reflexivity. Qed.

(** [which minisat] finds nothing. *)
Lemma sat_flag_without_minisat h w code :
  os_is_linux h = true ->
  spawn h ["which"; "minisat"] None = Exited code -> code <> 0%Z ->
  sat_flag_is_allowed h w =
    (Ok false, add_event (EvSpawn ["which"; "minisat"] None) w).
Proof.
  intros Hl Hs Hc. unfold sat_flag_is_allowed, mbind, M_bind.
  rewrite Hl, unix_executable_is_installed_eq, Hs.
  apply Z.eqb_neq in Hc. rewrite Hc. reflexivity.
Qed.

(** [which minisat] succeeds, [which timeout] finds nothing. *)
Lemma sat_flag_without_timeout h w code :
  os_is_linux h = true ->
  spawn h ["which"; "minisat"] None = Exited 0 ->
  spawn h ["which"; "timeout"] None = Exited code -> code <> 0%Z ->
  sat_flag_is_allowed h w =
    (Ok false,
     add_event (EvSpawn ["which"; "timeout"] None)
       (add_event (EvSpawn ["which"; "minisat"] None) w)).
Proof.
  intros Hl Hm Ht Hc. unfold sat_flag_is_allowed, mbind, M_bind.
  rewrite Hl, unix_executable_is_installed_eq, Hm. cbn.
  rewrite unix_executable_is_installed_eq, Ht.
  apply Z.eqb_neq in Hc. rewrite Hc. reflexivity.
Qed.

(** What [remesh_with_quadriflow] launches, and what it returns. *)
Lemma remesh_with_quadriflow_eq h i o args timeout w p b w1 :
  get_quadriflow_path_from_addon_prefs w = Ok p ->
  sat_flag_is_allowed h w = (Ok b, w1) ->
  remesh_with_quadriflow h i o args timeout w =
    (match spawn h (quadriflow_cmd p b args i o) (effective_timeout timeout) with
     | Exited _ => Ok tt
     | LaunchFailed e => Raise e
     end,
     add_event
       (EvSpawn (quadriflow_cmd p b args i o) (effective_timeout timeout)) w1).
Proof.
  intros Hp Hs.
  unfold remesh_with_quadriflow, mbind, M_bind, get_world, lift.
  rewrite Hp, Hs, subprocess_run_eq. cbn.
  destruct (spawn h _ _); reflexivity.
Qed.

(** The decimal form of an integer is never the flag [-sat]. *)
Lemma py_str_int_not_sat n : py_str_int n <> "-sat".
Proof.
  unfold py_str_int, NilZero.string_of_int, NilZero.string_of_uint.
  destruct (Z.to_int n) as [[]|[]]; discriminate.
Qed.

(** ** The command line *)

(** C1, as the code has it: with the three toggles off, the command line
    launched by [remesh_with_quadriflow] is the executable path, three empty
    strings in the flag positions, and then [-i], the input path, [-o], the
    output path, [-f] and the resolution in decimal, in that order.  None of
    [-mcf], [-sharp], [-sat] is put in a flag position, whatever the SAT
    check answers. *)
Theorem quadriflow_cmd_flags_off h i o args timeout w p b w1 :
  min_cost_flow args = false ->
  sharp_preserving args = false ->
  flip_removal args = false ->
  get_quadriflow_path_from_addon_prefs w = Ok p ->
  sat_flag_is_allowed h w = (Ok b, w1) ->
  let cmd := [Path.to_string p; ""; ""; ""; "-i"; i; "-o"; o; "-f";
              py_str_int (resolution args)] in
  quadriflow_cmd p b args i o = cmd /\
  flag_slots cmd = [""; ""; ""] /\
  trace (remesh_with_quadriflow h i o args timeout w).2 =
    trace w1 ++ [EvSpawn cmd (effective_timeout timeout)].
Proof.
  intros Hm Hs Hf Hp Hsat cmd.
  assert (Hcmd : quadriflow_cmd p b args i o = cmd).
  { unfold quadriflow_cmd, cmd. rewrite Hm, Hs, Hf.
    destruct b; reflexivity. }
  split; [exact Hcmd|]. split; [reflexivity|].
  rewrite (remesh_with_quadriflow_eq h i o args timeout w p b w1 Hp Hsat).
  rewrite Hcmd. reflexivity.
Qed.

Lemma quadriflow_cmd_flags_off_witness :
  let w := sample_world 1 default_settings in
  let h := windows_host (Exited 0) in
  let cmd := ["/opt/quadriflow"; ""; ""; ""; "-i"; "in.obj"; "-o"; "out.obj";
              "-f"; "1000"] in
  quadriflow_cmd (Path.of_string "/opt/quadriflow") false default_settings
    "in.obj" "out.obj" = cmd /\
  flag_slots cmd = [""; ""; ""] /\
  trace (remesh_with_quadriflow h "in.obj" "out.obj" default_settings None w).2 =
    trace w ++ [EvSpawn cmd None].
Proof.
  exact (quadriflow_cmd_flags_off (windows_host (Exited 0)) "in.obj" "out.obj"
           default_settings None (sample_world 1 default_settings)
           (Path.of_string "/opt/quadriflow") false
           (sample_world 1 default_settings)
           eq_refl eq_refl eq_refl eq_refl eq_refl).
Defined.

(** C1 as the spec words it fails: with every toggle off the launched
    command line has ten elements, three of them empty strings, and is not
    the seven-element line made of the executable and the [-i], [-o], [-f]
    pairs alone. *)
Lemma disabled_flags_stay_as_empty_strings :
  let w := sample_world 1 default_settings in
  let h := windows_host (Exited 0) in
  trace (remesh_with_quadriflow h "in.obj" "out.obj" default_settings None w).2
    = [EvSpawn ["/opt/quadriflow"; ""; ""; ""; "-i"; "in.obj"; "-o";
                "out.obj"; "-f"; "1000"] None] /\
  trace (remesh_with_quadriflow h "in.obj" "out.obj" default_settings None w).2
    <> [EvSpawn ["/opt/quadriflow"; "-i"; "in.obj"; "-o"; "out.obj"; "-f";
                 "1000"] None].
Proof. split; [reflexivity | discriminate]. Qed.

(** C2: when the SAT check answers false, no [-sat] is put on the command
    line, whatever [flip_removal] says: the SAT position holds the empty
    string, the flag positions do not hold [-sat], and [-sat] can only occur
    on the line as one of the three path strings handed in.  The world [w0]
    and host [h0] of any earlier invocation have no say: the check is made
    again, against the present host [h]. *)
Theorem sat_flag_needs_capability h0 i0 o0 args0 timeout0 w0
    h i o args timeout p w1 :
  let w := (remesh_with_quadriflow h0 i0 o0 args0 timeout0 w0).2 in
  get_quadriflow_path_from_addon_prefs w = Ok p ->
  sat_flag_is_allowed h w = (Ok false, w1) ->
  exists cmd,
    trace (remesh_with_quadriflow h i o args timeout w).2 =
      trace w1 ++ [EvSpawn cmd (effective_timeout timeout)] /\
    cmd !! 3 = Some "" /\
    ("-sat" ∉ flag_slots cmd) /\
    (Path.to_string p <> "-sat" -> i <> "-sat" -> o <> "-sat" ->
     "-sat" ∉ cmd).
Proof.
  intros w Hp Hsat. exists (quadriflow_cmd p false args i o).
  rewrite (remesh_with_quadriflow_eq h i o args timeout w p false w1 Hp Hsat).
  split; [reflexivity|].
  assert (Hmcf : py_str_mul "-mcf" (Z.b2z (min_cost_flow args)) <> "-sat")
    by (destruct (min_cost_flow args); discriminate).
  assert (Hsharp : py_str_mul "-sharp" (Z.b2z (sharp_preserving args)) <> "-sat")
    by (destruct (sharp_preserving args); discriminate).
  assert (Hslot : py_str_mul (py_str_mul "-sat" (Z.b2z false))
                    (Z.b2z (flip_removal args)) = "")
    by (destruct (flip_removal args); reflexivity).
  unfold quadriflow_cmd, flag_slots. rewrite Hslot. cbn [drop take].
  split; [reflexivity|]. split.
  - intros Hin. repeat (apply elem_of_cons in Hin as [Hin|Hin]);
      try congruence; try discriminate. inversion Hin.
  - intros H0 Hi Ho Hin. pose proof (py_str_int_not_sat (resolution args)).
    repeat (apply elem_of_cons in Hin as [Hin|Hin]);
      try congruence; try discriminate. inversion Hin.
Qed.

Lemma sat_flag_needs_capability_witness :
  let h0 := linux_host (Exited 0) in
  let h := linux_host_without_minisat (Exited 0) in
  let args := {| flip_removal := true; min_cost_flow := true;
                 require_manifold := false; resolution := 1000;
                 sharp_preserving := false |} in
  let w0 := sample_world 1 args in
  let w := (remesh_with_quadriflow h0 "a.obj" "b.obj" args None w0).2 in
  In (EvSpawn ["/opt/quadriflow"; "-mcf"; ""; "-sat"; "-i"; "a.obj"; "-o";
               "b.obj"; "-f"; "1000"] None) (trace w) /\
  exists cmd,
    trace (remesh_with_quadriflow h "a.obj" "b.obj" args None w).2 =
      trace (add_event (EvSpawn ["which"; "minisat"] None) w) ++
      [EvSpawn cmd None] /\
    cmd !! 3 = Some "" /\
    ("-sat" ∉ flag_slots cmd) /\
    (Path.to_string (Path.of_string "/opt/quadriflow") <> "-sat" ->
     "a.obj" <> "-sat" -> "b.obj" <> "-sat" -> "-sat" ∉ cmd).
Proof.
  split.
  - vm_compute. tauto.
  - exact (sat_flag_needs_capability (linux_host (Exited 0)) "a.obj" "b.obj"
             _ None (sample_world 1 _)
             (linux_host_without_minisat (Exited 0)) "a.obj" "b.obj"
             {| flip_removal := true; min_cost_flow := true;
                require_manifold := false; resolution := 1000;
                sharp_preserving := false |} None
             (Path.of_string "/opt/quadriflow") _ eq_refl eq_refl).
Defined.

(** ** The timeout *)

(** C6: the timeout read from the preferences is never negative (a stored
    negative integer reads as 0), and [remesh_with_quadriflow] hands the
    process launch no timeout when it is 0 and exactly that many seconds
    when it is positive. *)
Theorem timeout_clamped_and_enforced h i o args w p b w1 t :
  get_quadriflow_timeout_from_addon_prefs w = Ok t ->
  get_quadriflow_path_from_addon_prefs w = Ok p ->
  sat_flag_is_allowed h w = (Ok b, w1) ->
  (0 <= t)%Z /\
  (forall z, get_addon_preference w package "quadriflow_timeout" (VInt 0)
             = VInt z -> t = Z.max z 0 /\ ((z < 0)%Z -> t = 0%Z)) /\
  exists cmd enforced,
    trace (remesh_with_quadriflow h i o args (Some t) w).2 =
      trace w1 ++ [EvSpawn cmd enforced] /\
    (t = 0%Z -> enforced = None) /\
    ((0 < t)%Z -> enforced = Some t).
Proof.
  intros Ht Hp Hsat.
  unfold get_quadriflow_timeout_from_addon_prefs in Ht.
  assert (Hnn : (0 <= t)%Z).
  { destruct (get_addon_preference w package "quadriflow_timeout" (VInt 0));
      cbn in Ht; try discriminate; injection Ht as <-; lia. }
  split; [exact Hnn|]. split.
  - intros z Hz. rewrite Hz in Ht. cbn in Ht. injection Ht as <-.
    split; [reflexivity | lia].
  - exists (quadriflow_cmd p b args i o), (effective_timeout (Some t)).
    rewrite (remesh_with_quadriflow_eq h i o args (Some t) w p b w1 Hp Hsat).
    split; [reflexivity|]. cbn. split.
    + intros ->. reflexivity.
    + intros Hpos. destruct (Z.eqb_spec t 0); [lia | reflexivity].
Qed.

Lemma timeout_clamped_and_enforced_witness :
  let w := sample_world 1 default_settings in
  let h := windows_host (Exited 0) in
  (0 <= 30)%Z /\
  (forall z, get_addon_preference w package "quadriflow_timeout" (VInt 0)
             = VInt z -> 30%Z = Z.max z 0 /\ ((z < 0)%Z -> 30%Z = 0%Z)) /\
  exists cmd enforced,
    trace (remesh_with_quadriflow h "a.obj" "b.obj" default_settings
             (Some 30%Z) w).2 = trace w ++ [EvSpawn cmd enforced] /\
    (30%Z = 0%Z -> enforced = None) /\
    ((0 < 30)%Z -> enforced = Some 30%Z).
Proof.
  exact (timeout_clamped_and_enforced (windows_host (Exited 0)) "a.obj" "b.obj"
           default_settings (sample_world 1 default_settings)
           (Path.of_string "/opt/quadriflow") false
           (sample_world 1 default_settings) 30%Z eq_refl eq_refl eq_refl).
Defined.

(** ** The operator *)

Lemma get_objects_in_scene_all sc : get_objects_in_scene sc [] = objects sc.
Proof.
  unfold get_objects_in_scene. induction (objects sc) as [|o l IH];
    [reflexivity|]. cbn. f_equal. exact IH.
Qed.

Lemma fix_selection_eq io iso w :
  fix_selection io iso w = (Ok tt, set_scene (fixed_scene io iso (scene w)) w).
Proof.
  unfold fix_selection, fixed_scene, mbind, M_bind, get_world.
  destruct (get_objects_in_scene (scene w) io); reflexivity.
Qed.






(** With distinct identities, an object is found among the initially
    selected ones exactly when the object of its identity was selected. *)
Lemma obj_in_selected io :
  NoDup (map oid io) ->
  forall x y, In y io -> oid x = oid y ->
  obj_in x (List.filter select io) = select y.
Proof.
  unfold obj_in. induction io as [|z io IH]; intros Hnd x y Hy Hxy;
    [destruct Hy|].
  cbn in Hnd. apply NoDup_cons in Hnd as [Hz Hnd].
  destruct Hy as [->|Hy].
  - cbn. destruct (select y) eqn:Hsel.
    + cbn. rewrite Hxy, Nat.eqb_refl. reflexivity.
    + apply not_true_is_false. intros Hex.
      apply existsb_exists in Hex as (u & Hu & Heq).
      apply filter_In in Hu as [Hu _]. apply Nat.eqb_eq in Heq.
      apply Hz. apply list_elem_of_In, in_map_iff.
      exists u. split; [congruence | exact Hu].
  - assert (Hne : Nat.eqb (oid z) (oid x) = false).
    { apply Nat.eqb_neq. intros Heq. apply Hz.
      apply list_elem_of_In, in_map_iff.
      exists y. split; [congruence | exact Hy]. }
    cbn. destruct (select z); cbn; rewrite ?Hne; cbn; apply IH; auto.
Qed.


(** A scene that holds the identities it held before holds nothing new. *)
Lemma no_new_objects l2 l1 :
  map oid l2 = map oid l1 ->
  List.filter (fun obj => negb (obj_in obj l1)) l2 = [].
Proof.
  intros Hoid.
  assert (Hall : forall x, In x l2 -> obj_in x l1 = true).
  { intros x Hx. unfold obj_in. apply existsb_exists.
    assert (Hin : In (oid x) (map oid l1))
      by (rewrite <- Hoid; apply in_map; exact Hx).
    apply in_map_iff in Hin as (y & Hy & Hyin).
    exists y. split; [exact Hyin | apply Nat.eqb_eq; exact Hy]. }
  clear Hoid. induction l2 as [|x l2 IH]; [reflexivity|].
  cbn. rewrite (Hall x (or_introl eq_refl)). cbn.
  apply IH. intros x' Hx'. apply Hall. right. exact Hx'.
Qed.



(** When the launch is refused or times out and the exporter has left the
    objects alone, the run still returns and every selection flag is back
    to what it was. *)
Example selection_restored_after_timeout :
  let h := linux_host (LaunchFailed TimeoutExpired) in
  let w := sample_world 1 default_settings in
  (execute h w).1 = Ok (VSet ["FINISHED"]) /\
  map select (objects (scene (execute h w).2)) = map select (objects (scene w)) /\
  reports (execute h w).2 = [(["ERROR"], msg_subprocess_error)].
Proof. vm_compute. repeat split. Qed.

Example selection_restored_after_permission_error :
  let h := linux_host (LaunchFailed PermissionError) in
  let w := sample_world 1 default_settings in
  (execute h w).1 = Ok (VSet ["FINISHED"]) /\
  map select (objects (scene (execute h w).2)) = map select (objects (scene w)) /\
  reports (execute h w).2 = [(["ERROR"], msg_permission_error)].
Proof. vm_compute. repeat split. Qed.

(** A launch failure that is neither a permission error nor a subprocess
    error is not caught: the run does not return. *)
Example missing_executable_propagates :
  (execute (linux_host (LaunchFailed FileNotFoundError))
     (sample_world 1 default_settings)).1 = Raise FileNotFoundError.
Proof. vm_compute. reflexivity. Qed.

(** C3: with [require_manifold] set and a mesh that is not manifold,
    [execute] adds the error report and returns; the scene (objects,
    selection flags, active object), the preferences and the trace of
    outside effects (no temporary directory, no export, no process launch,
    no import) are as they were. *)
Theorem non_manifold_refused h w o :
  active_object (scene w) = Some o ->
  require_manifold (autoflow (scene w)) = true ->
  mesh_is_manifold (data o) = Ok false ->
  execute h w =
    (Ok (VSet ["FINISHED"]), add_report (["ERROR"], msg_not_manifold) w) /\
  scene (execute h w).2 = scene w /\
  trace (execute h w).2 = trace w /\
  addons (execute h w).2 = addons w /\
  reports (execute h w).2 = reports w ++ [(["ERROR"], msg_not_manifold)].
Proof.
  intros Ha Hr Hm.
  assert (Hex : execute h w =
    (Ok (VSet ["FINISHED"]), add_report (["ERROR"], msg_not_manifold) w)).
  { unfold execute, mbind, M_bind, get_world, lift, manifold_check_fails.
    rewrite Ha, Hr. cbn [attr_data]. rewrite Hm. reflexivity. }
  rewrite Hex. repeat split.
Qed.

Lemma non_manifold_refused_witness :
  let h := linux_host (Exited 0) in
  let w := sample_world 3 strict_settings in
  execute h w =
    (Ok (VSet ["FINISHED"]), add_report (["ERROR"], msg_not_manifold) w) /\
  scene (execute h w).2 = scene w /\
  trace (execute h w).2 = trace w /\
  addons (execute h w).2 = addons w /\
  reports (execute h w).2 = reports w ++ [(["ERROR"], msg_not_manifold)].
Proof.
  exact (non_manifold_refused (linux_host (Exited 0))
           (sample_world 3 strict_settings) fins_object
           eq_refl eq_refl eq_refl).
Defined.

(** A launch that fails with a permission error or a subprocess error
    (a timeout is one) is caught: the [try] statement returns, the scene is
    untouched and one error is reported. *)
Lemma caught_launch_failure h ip op af timeout w p b w1 e :
  get_quadriflow_path_from_addon_prefs w = Ok p ->
  sat_flag_is_allowed h w = (Ok b, w1) ->
  spawn h (quadriflow_cmd p b af ip op) (effective_timeout timeout)
    = LaunchFailed e ->
  isinstance_PermissionError e || isinstance_SubprocessError e = true ->
  (try_remesh_import h ip op af timeout w).1 = Ok tt /\
  scene (try_remesh_import h ip op af timeout w).2 = scene w /\
  reports (try_remesh_import h ip op af timeout w).2 =
    reports w ++ [(["ERROR"],
                   if isinstance_PermissionError e then msg_permission_error
                   else msg_subprocess_error)].
Proof.
  intros Hp Hsat Hfail Hcaught.
  pose proof (remesh_with_quadriflow_eq h ip op af timeout w p b w1 Hp Hsat)
    as Hrun.
  rewrite Hfail in Hrun.
  destruct (sat_flag_is_allowed_frame h w _ _ Hsat) as (_ & Hsc & Hrep).
  unfold try_remesh_import, try_except_else. rewrite Hrun.
  unfold execute_handler.
  destruct (isinstance_PermissionError e) eqn:Hperm.
  - run_monad. rewrite Hsc, Hrep. repeat split.
  - cbn in Hcaught. rewrite Hcaught. run_monad.
    rewrite Hsc, Hrep. repeat split.
Qed.

(** C5: whatever exit code the executable returns, zero or not,
    [remesh_with_quadriflow] returns without raising, the [try] statement
    of [execute] goes on to import the output file, and no error is
    reported. *)
Theorem nonzero_exit_still_imports h ip op af timeout w p b w1 code :
  get_quadriflow_path_from_addon_prefs w = Ok p ->
  sat_flag_is_allowed h w = (Ok b, w1) ->
  spawn h (quadriflow_cmd p b af ip op) (effective_timeout timeout)
    = Exited code ->
  (remesh_with_quadriflow h ip op af timeout w).1 = Ok tt /\
  In (EvImport op) (trace (try_remesh_import h ip op af timeout w).2) /\
  reports (try_remesh_import h ip op af timeout w).2 = reports w.
Proof.
  intros Hp Hsat Hcode.
  pose proof (remesh_with_quadriflow_eq h ip op af timeout w p b w1 Hp Hsat)
    as Hrun.
  rewrite Hcode in Hrun.
  destruct (sat_flag_is_allowed_frame h w _ _ Hsat) as (_ & _ & Hrep).
  unfold try_remesh_import, try_except_else. rewrite Hrun.
  split; [reflexivity|].
  unfold mbind, M_bind, print, emit, modify, bpy_ops_import_scene_obj.
  cbn -[import_scene_obj].
  destruct (import_scene_obj h op _) as [[[]|e] so]; cbn.
  - split; [|exact Hrep].
    apply in_or_app. left. apply in_or_app. right. left. reflexivity.
  - split; [|exact Hrep].
    apply in_or_app. right. left. reflexivity.
Qed.

Lemma nonzero_exit_still_imports_witness :
  let h := windows_host (Exited 3) in
  let w := sample_world 1 default_settings in
  (remesh_with_quadriflow h "a.obj" "b.obj" default_settings (Some 30%Z) w).1
    = Ok tt /\
  In (EvImport "b.obj")
    (trace (try_remesh_import h "a.obj" "b.obj" default_settings
              (Some 30%Z) w).2) /\
  reports (try_remesh_import h "a.obj" "b.obj" default_settings
             (Some 30%Z) w).2 = reports w.
Proof.
  exact (nonzero_exit_still_imports (windows_host (Exited 3)) "a.obj" "b.obj"
           default_settings (Some 30%Z) (sample_world 1 default_settings)
           (Path.of_string "/opt/quadriflow") false
           (sample_world 1 default_settings) 3%Z eq_refl eq_refl eq_refl).
Defined.

(** ** What can be remeshed *)

(** C8: [object_can_be_remeshed] is a total boolean function; it answers
    true exactly for an object (not [None]) of type mesh, in object mode,
    that is selected.  A selected mesh in edit mode gets false, and so does
    [None]. *)
Theorem object_can_be_remeshed_iff :
  (forall obj,
     object_can_be_remeshed obj = true <->
     exists o, obj = Some o /\ type o = "MESH" /\ mode o = "OBJECT" /\
               select o = true) /\
  (forall id nm d,
     object_can_be_remeshed
       (Some {| oid := id; name := nm; type := "MESH"; mode := "EDIT";
                select := true; data := d |}) = false) /\
  object_can_be_remeshed None = false.
Proof.
  split; [|split; reflexivity].
  intros [o|]; unfold object_can_be_remeshed, object_has_properties; cbn.
  - rewrite !andb_true_r, !andb_true_iff, !String.eqb_eq, eqb_true_iff.
    split.
    + intros (Hm & Ht & Hs). exists o. auto.
    + intros (o' & [= <-] & Ht & Hm & Hs). auto.
  - split; [discriminate | intros (o & [=] & _)].
Qed.

(** ** Preferences that are not there *)

(** An add-on that is not among the enabled ones has no preference set. *)
Lemma get_addon_preferences_absent w addon_name key :
  addons w !! addon_name = None ->
  get_addon_preferences w addon_name !! key = None.
Proof. unfold get_addon_preferences. intros ->. apply lookup_empty. Qed.

(** The path checks read the preferences only. *)
Lemma path_pref_reads_only_addons w w' :
  addons w' = addons w ->
  quadriflow_path_pref_is_set w' = quadriflow_path_pref_is_set w /\
  get_quadriflow_path_from_addon_prefs w' =
    get_quadriflow_path_from_addon_prefs w.
Proof.
  intros Ha.
  unfold quadriflow_path_pref_is_set, get_quadriflow_path_from_addon_prefs,
    get_addon_preference, get_addon_preferences.
  rewrite Ha. split; reflexivity.
Qed.

(** Drawing the settings is the SAT check and the rows it decides on. *)
Lemma add_quadriflow_args_to_layout_eq h layout w :
  add_quadriflow_args_to_layout h layout w =
    (match (sat_flag_is_allowed h w).1 with
     | Ok allowed =>
         Ok (layout ++ ["min_cost_flow"; "sharp_preserving"] ++
             (if allowed then ["flip_removal"] else []) ++
             ["require_manifold"; "resolution"])
     | Raise e => Raise e
     end, (sat_flag_is_allowed h w).2).
Proof.
  unfold add_quadriflow_args_to_layout, layout_prop, mbind, M_bind, mret, M_ret.
  destruct (sat_flag_is_allowed h w) as [[[]|e] w1]; cbn [fst snd];
    rewrite <- ?app_assoc; reflexivity.
Qed.

(** What the panel draws after the settings, read off the world that the
    SAT check leaves. *)
Lemma tools_panel_draw_eq h layout w :
  tools_panel_draw h layout w =
    match add_quadriflow_args_to_layout h layout w with
    | (Raise e, w1) => (Raise e, w1)
    | (Ok layout', w1) =>
        (match quadriflow_path_pref_is_set w with
         | Raise e => Raise e
         | Ok false =>
             Ok (layout',
                 {| col_operator := {| op_idname := "autoflow.remesh";
                                       op_text := Some "Set QuadriFlow path";
                                       op_icon := "ERROR" |};
                    col_enabled := false |})
         | Ok true =>
             match get_quadriflow_path_from_addon_prefs w with
             | Raise e => Raise e
             | Ok quadriflow_path =>
                 if negb (path_exists h (Path.to_string quadriflow_path)) then
                   Ok (layout',
                       {| col_operator :=
                            {| op_idname := "autoflow.remesh";
                               op_text := Some "QuadriFlow path not found";
                               op_icon := "ERROR" |};
                          col_enabled := false |})
                 else if negb (object_can_be_remeshed
                                 (active_object (scene w))) then
                   Ok (layout',
                       {| col_operator :=
                            {| op_idname := "autoflow.remesh";
                               op_text := Some "Select a mesh in object mode";
                               op_icon := "ERROR" |};
                          col_enabled := false |})
                 else if negb (autoflow_is_compatible_with_os h) then
                   Ok (layout',
                       {| col_operator :=
                            {| op_idname := "autoflow.remesh";
                               op_text := Some "Autoflow is for Linux or Windows";
                               op_icon := "ERROR" |};
                          col_enabled := false |})
                 else
                   Ok (layout',
                       {| col_operator := {| op_idname := "autoflow.remesh";
                                             op_text := None;
                                             op_icon := "FILE_TICK" |};
                          col_enabled := true |})
             end
         end, w1)
    end.
Proof.
  unfold tools_panel_draw, mbind, M_bind, get_world, lift, mret, M_ret.
  destruct (add_quadriflow_args_to_layout h layout w) as [[layout'|e] w1] eqn:E;
    [|reflexivity].
  rewrite add_quadriflow_args_to_layout_eq in E.
  assert (Hw1 : w1 = (sat_flag_is_allowed h w).2) by congruence.
  destruct (sat_flag_is_allowed h w) as [r w2] eqn:Hsat. cbn [snd] in Hw1.
  subst w2.
  destruct (sat_flag_is_allowed_frame h w _ _ Hsat) as (Ha & Hs & _).
  destruct (path_pref_reads_only_addons w w1 Ha) as [-> ->]. rewrite Hs.
  destruct (quadriflow_path_pref_is_set w) as [[]|e]; cbn [negb];
    [|reflexivity|reflexivity].
  destruct (get_quadriflow_path_from_addon_prefs w) as [qp|e]; [|reflexivity].
  destruct (path_exists h (Path.to_string qp)); cbn [negb]; [|reflexivity].
  destruct (object_can_be_remeshed (active_object (scene w))); cbn [negb];
    [|reflexivity].
  destruct (autoflow_is_compatible_with_os h); reflexivity.
Qed.

(** C10: a preference that was never set reads as its default, without
    raising: the path as the empty path, so that the path counts as unset;
    the timeout as 0.  Both hold when the add-on has no preferences record
    at all.  With the path unset the dialog's check returns the message
    that the path must be set, and the panel draws its settings and then the
    disabled trigger captioned [Set QuadriFlow path]; the panel raises where
    the SAT check of its settings raises, and only there. *)
Theorem unset_preferences_read_as_defaults h w :
  (get_addon_preferences w package !! "quadriflow_path" = None ->
   get_quadriflow_path_from_addon_prefs w = Ok (Path.of_string "") /\
   quadriflow_path_pref_is_set w = Ok false /\
   pre_execution_error_message h w = Ok msg_path_unset /\
   forall layout,
     (tools_panel_draw h layout w).1 =
       match (sat_flag_is_allowed h w).1 with
       | Ok allowed =>
           Ok (layout ++ ["min_cost_flow"; "sharp_preserving"] ++
               (if allowed then ["flip_removal"] else []) ++
               ["require_manifold"; "resolution"],
               {| col_operator := {| op_idname := "autoflow.remesh";
                                     op_text := Some "Set QuadriFlow path";
                                     op_icon := "ERROR" |};
                  col_enabled := false |})
       | Raise e => Raise e
       end) /\
  (get_addon_preferences w package !! "quadriflow_timeout" = None ->
   get_quadriflow_timeout_from_addon_prefs w = Ok 0%Z) /\
  (addons w !! package = None ->
   get_quadriflow_path_from_addon_prefs w = Ok (Path.of_string "") /\
   quadriflow_path_pref_is_set w = Ok false /\
   get_quadriflow_timeout_from_addon_prefs w = Ok 0%Z).
Proof.
  assert (Hpath : get_addon_preferences w package !! "quadriflow_path" = None ->
                  get_quadriflow_path_from_addon_prefs w
                    = Ok (Path.of_string "")).
  { intros Hk. unfold get_quadriflow_path_from_addon_prefs,
      get_addon_preference. rewrite Hk. reflexivity. }
  assert (Hset : get_addon_preferences w package !! "quadriflow_path" = None ->
                 quadriflow_path_pref_is_set w = Ok false).
  { intros Hk. unfold quadriflow_path_pref_is_set. rewrite (Hpath Hk).
    reflexivity. }
  assert (Htime : get_addon_preferences w package !! "quadriflow_timeout" = None ->
                  get_quadriflow_timeout_from_addon_prefs w = Ok 0%Z).
  { intros Hk. unfold get_quadriflow_timeout_from_addon_prefs,
      get_addon_preference. rewrite Hk. reflexivity. }
  split; [|split].
  - intros Hk. split; [exact (Hpath Hk)|]. split; [exact (Hset Hk)|].
    split.
    + unfold pre_execution_error_message. rewrite (Hset Hk). reflexivity.
    + intros layout. rewrite tools_panel_draw_eq.
      rewrite add_quadriflow_args_to_layout_eq, (Hset Hk).
      destruct ((sat_flag_is_allowed h w).1) as [allowed|e]; reflexivity.
  - exact Htime.
  - intros Habs.
    pose proof (get_addon_preferences_absent w package "quadriflow_path" Habs).
    pose proof (get_addon_preferences_absent w package "quadriflow_timeout" Habs).
    auto.
Qed.

Lemma unset_preferences_read_as_defaults_witness :
  (get_quadriflow_path_from_addon_prefs fresh_world = Ok (Path.of_string "") /\
   quadriflow_path_pref_is_set fresh_world = Ok false /\
   get_quadriflow_timeout_from_addon_prefs fresh_world = Ok 0%Z) /\
  pre_execution_error_message (windows_host (Exited 0)) fresh_world
    = Ok msg_path_unset.
Proof.
  split.
  - exact (proj2 (proj2 (unset_preferences_read_as_defaults
                           (windows_host (Exited 0)) fresh_world)) eq_refl).
  - exact (proj1 (proj2 (proj2
             (proj1 (unset_preferences_read_as_defaults
                       (windows_host (Exited 0)) fresh_world) eq_refl)))).
Defined.

(** C10 as the specification words it ends on the interface reporting the
    path as unset rather than failing.  With no stored preferences the path
    does count as unset, but the dialog raises a [TypeError] and nothing is
    reported; and a panel drawn on a Linux machine where [which] cannot be
    launched raises before it comes to the trigger. *)
Lemma unset_path_is_not_reported_by_the_dialog :
  addons fresh_world !! package = None /\
  quadriflow_path_pref_is_set fresh_world = Ok false /\
  invoke (windows_host (Exited 0)) fresh_world
    = (Raise TypeError, fresh_world) /\
  reports (invoke (windows_host (Exited 0)) fresh_world).2 = [] /\
  (tools_panel_draw (linux_host_without_which (Exited 0)) [] fresh_world).1
    = Raise FileNotFoundError.
Proof. repeat split. Qed.

(** A stored negative timeout reads as 0; a stored string makes the read
    raise. *)
Example negative_timeout_reads_as_zero :
  get_quadriflow_timeout_from_addon_prefs
    {| addons := <[package := <["quadriflow_timeout" := VInt (-5)]> ∅]> ∅;
       scene := scene fresh_world; reports := []; trace := [] |} = Ok 0%Z.
Proof. reflexivity. Qed.

(** ** The dialog *)

Lemma messages_not_empty :
  py_truthy_str msg_path_unset = true /\
  py_truthy_str msg_path_not_found = true /\
  py_truthy_str msg_no_mesh = true /\
  py_truthy_str msg_os = true.
Proof. repeat split. Qed.

(** The checks of the dialog are made in the order path unset, path not
    found, no mesh to remesh, platform; the first that fails gives the
    message, and the message is empty when none fails. *)
Lemma pre_execution_error_message_priority h w p :
  get_quadriflow_path_from_addon_prefs w = Ok p ->
  pre_execution_error_message h w =
    Ok (if bool_decide (p = Path.of_string "") then msg_path_unset
        else if negb (path_exists h (Path.to_string p)) then msg_path_not_found
        else if negb (object_can_be_remeshed (active_object (scene w)))
             then msg_no_mesh
        else if negb (autoflow_is_compatible_with_os h) then msg_os
        else "").
Proof.
  intros Hp. unfold pre_execution_error_message, quadriflow_path_pref_is_set.
  rewrite Hp. destruct (bool_decide (p = Path.of_string "")); cbn [negb].
  - reflexivity.
  - destruct (negb (path_exists h (Path.to_string p))); [reflexivity|].
    destruct (negb (object_can_be_remeshed _)); [reflexivity|].
    destruct (negb (autoflow_is_compatible_with_os h)); reflexivity.
Qed.

(** With no message, [invoke] opens the settings dialog. *)
Lemma invoke_opens_dialog h w :
  pre_execution_error_message h w = Ok "" ->
  invoke h w = (Ok (VSet ["RUNNING_MODAL"]), add_event EvPropsDialog w).
Proof.
  intros Hm. unfold invoke, mbind, M_bind, get_world, lift. rewrite Hm.
  reflexivity.
Qed.

(** C7, where the code departs from it: with a message to report, [invoke]
    hands [Operator.report] the string [ERROR], where [execute] hands it the
    set holding [ERROR].  The report is refused: [invoke] raises a
    [TypeError], the message does not reach the report list and the dialog
    is not opened.  Handed the set, as in [execute], the same call adds the
    message. *)
Theorem invoke_report_type_is_a_string h w msg :
  pre_execution_error_message h w = Ok msg ->
  py_truthy_str msg = true ->
  invoke h w = (Raise TypeError, w) /\
  invoke h w = report (VStr "ERROR") msg w /\
  report (VSet ["ERROR"]) msg w = (Ok VNone, add_report (["ERROR"], msg) w).
Proof.
  intros Hm Ht. unfold invoke, mbind, M_bind, get_world, lift.
  rewrite Hm, Ht. repeat split.
Qed.

Lemma invoke_report_type_is_a_string_witness :
  let h := windows_host (Exited 0) in
  invoke h fresh_world = (Raise TypeError, fresh_world) /\
  invoke h fresh_world = report (VStr "ERROR") msg_path_unset fresh_world /\
  report (VSet ["ERROR"]) msg_path_unset fresh_world =
    (Ok VNone, add_report (["ERROR"], msg_path_unset) fresh_world).
Proof.
  exact (invoke_report_type_is_a_string (windows_host (Exited 0)) fresh_world
           msg_path_unset eq_refl eq_refl).
Defined.

(** ** Manifold meshes *)

Lemma all_elements_are_manifold_iff {E : Type} `{HasIsManifold E}
    (elements : list E) :
  all_elements_are_manifold elements = true <->
  forall e, In e elements -> is_manifold e = true.
Proof. apply forallb_forall. Qed.

(** One edge that is not manifold makes the mesh not manifold. *)
Lemma non_manifold_edge_spoils m e :
  In e (bm_edges (bm_from_mesh m)) ->
  length (e_link_faces e) <> 2 ->
  mesh_is_manifold (DataMesh m) = Ok false.
Proof.
  intros He Hn. unfold mesh_is_manifold. f_equal.
  apply andb_false_intro1, not_true_is_false. intros Hall.
  apply (proj1 (all_elements_are_manifold_iff _)) with (e := e) in Hall;
    [|exact He].
  apply Nat.eqb_eq in Hall. contradiction.
Qed.

(** *** The walk around a fan reaches what can be reached *)

Section FanWalk.

Context (es : list BMEdge).

Lemma elem_of_fan_faces g :
  g ∈ fan_faces es <-> exists e, e ∈ es /\ g ∈ e_link_faces e.
Proof.
  unfold fan_faces. rewrite elem_of_remove_dups, list_elem_of_In, in_flat_map.
  split; intros (e & He & Hg); exists e;
    [rewrite !list_elem_of_In | rewrite <- !list_elem_of_In]; auto.
Qed.

Lemma elem_of_fan_step seen g :
  g ∈ fan_step es seen <->
  g ∈ seen \/
  exists e f, e ∈ es /\ f ∈ e_link_faces e /\ f ∈ seen /\ g ∈ e_link_faces e.
Proof.
  unfold fan_step.
  rewrite elem_of_remove_dups, elem_of_app, (list_elem_of_In (flat_map _ _) g),
    in_flat_map.
  split; (intros [Hs|H]; [left; exact Hs | right]).
  - destruct H as (e & He & Hg).
    destruct (existsb _ (e_link_faces e)) eqn:Hex; [|destruct Hg].
    apply existsb_exists in Hex as (f & Hf & Hfs).
    apply bool_decide_eq_true in Hfs.
    exists e, f.
    repeat split; first [assumption | apply list_elem_of_In; assumption].
  - destruct H as (e & f & He & Hf & Hfs & Hg). exists e.
    rewrite <- list_elem_of_In. split; [exact He|].
    assert (Hex : existsb (fun f => bool_decide (f ∈ seen)) (e_link_faces e)
                  = true).
    { apply existsb_exists. exists f. rewrite <- list_elem_of_In.
      split; [exact Hf | apply bool_decide_eq_true; exact Hfs]. }
    rewrite Hex. apply list_elem_of_In. exact Hg.
Qed.

Lemma fan_step_grows seen g : g ∈ seen -> g ∈ fan_step es seen.
Proof. intros Hg. apply elem_of_fan_step. left. exact Hg. Qed.

Lemma fan_step_NoDup seen : NoDup (fan_step es seen).
Proof. apply NoDup_remove_dups. Qed.

Lemma fan_step_in_faces seen :
  (forall g, g ∈ seen -> g ∈ fan_faces es) ->
  forall g, g ∈ fan_step es seen -> g ∈ fan_faces es.
Proof.
  intros Hs g Hg. apply elem_of_fan_step in Hg as [Hg|(e & f & He & _ & _ & Hg)].
  - apply Hs, Hg.
  - apply elem_of_fan_faces. exists e. auto.
Qed.

Lemma fan_step_sound f0 seen :
  (forall g, g ∈ seen -> rtc (fan_neighbours es) f0 g) ->
  forall g, g ∈ fan_step es seen -> rtc (fan_neighbours es) f0 g.
Proof.
  intros Hs g Hg.
  apply elem_of_fan_step in Hg as [Hg|(e & f & He & Hf & Hfs & Hg)].
  - apply Hs, Hg.
  - apply rtc_r with f; [apply Hs, Hfs|]. exists e. auto.
Qed.

Lemma fan_closed_step seen :
  fan_closed es seen -> forall g, g ∈ fan_step es seen <-> g ∈ seen.
Proof.
  intros Hc g. split; [|apply fan_step_grows].
  intros Hg. apply elem_of_fan_step in Hg as [Hg|(e & f & He & Hf & Hfs & Hg)].
  - exact Hg.
  - apply (Hc f g Hfs). exists e. auto.
Qed.

Lemma fan_closed_equiv seen seen' :
  (forall g, g ∈ seen' <-> g ∈ seen) -> fan_closed es seen ->
  fan_closed es seen'.
Proof.
  intros Heq Hc f g Hf Hn. apply Heq. apply (Hc f g); [apply Heq, Hf | exact Hn].
Qed.

Lemma fan_step_length seen :
  NoDup seen ->
  length seen <= length (fan_step es seen) /\
  (length (fan_step es seen) = length seen -> fan_closed es seen).
Proof.
  intros Hnd.
  assert (Hsub : seen ⊆+ fan_step es seen)
    by (apply NoDup_submseteq; [exact Hnd | apply fan_step_grows]).
  split; [apply submseteq_length, Hsub|].
  intros Hlen f g Hf (e & He & Hfe & Hge).
  assert (Hperm : seen ≡ₚ fan_step es seen)
    by (apply submseteq_length_Permutation; [exact Hsub | lia]).
  rewrite Hperm. apply elem_of_fan_step. right. exists e, f. auto.
Qed.

Lemma fan_faces_closed : fan_closed es (fan_faces es).
Proof.
  intros f g _ (e & He & _ & Hg). apply elem_of_fan_faces. exists e. auto.
Qed.

Lemma fan_region_grows n seen g : g ∈ seen -> g ∈ fan_region n es seen.
Proof.
  revert seen. induction n as [|n IH]; intros seen Hg; [exact Hg|].
  cbn. apply IH, fan_step_grows, Hg.
Qed.

Lemma fan_region_NoDup n seen : NoDup seen -> NoDup (fan_region n es seen).
Proof.
  revert seen. induction n as [|n IH]; intros seen Hnd; [exact Hnd|].
  cbn. apply IH, fan_step_NoDup.
Qed.

Lemma fan_region_in_faces n seen :
  (forall g, g ∈ seen -> g ∈ fan_faces es) ->
  forall g, g ∈ fan_region n es seen -> g ∈ fan_faces es.
Proof.
  revert seen. induction n as [|n IH]; intros seen Hs; [exact Hs|].
  cbn. apply IH, fan_step_in_faces, Hs.
Qed.

Lemma fan_region_sound f0 n seen :
  (forall g, g ∈ seen -> rtc (fan_neighbours es) f0 g) ->
  forall g, g ∈ fan_region n es seen -> rtc (fan_neighbours es) f0 g.
Proof.
  revert seen. induction n as [|n IH]; intros seen Hs; [exact Hs|].
  cbn. apply IH, fan_step_sound, Hs.
Qed.

Lemma fan_region_of_closed n seen :
  fan_closed es seen -> forall g, g ∈ fan_region n es seen <-> g ∈ seen.
Proof.
  revert seen. induction n as [|n IH]; intros seen Hc g; [reflexivity|].
  cbn. rewrite IH.
  - apply fan_closed_step, Hc.
  - apply (fan_closed_equiv seen); [apply fan_closed_step, Hc | exact Hc].
Qed.

(** Enough rounds close the region. *)
Lemma fan_region_closed n seen :
  NoDup seen ->
  (forall g, g ∈ seen -> g ∈ fan_faces es) ->
  length (fan_faces es) <= n + length seen ->
  fan_closed es (fan_region n es seen).
Proof.
  revert seen. induction n as [|n IH]; intros seen Hnd Hs Hlen.
  - cbn. assert (Hperm : seen ≡ₚ fan_faces es).
    { apply submseteq_length_Permutation; [|lia].
      apply NoDup_submseteq; assumption. }
    apply (fan_closed_equiv (fan_faces es)); [|apply fan_faces_closed].
    intros g. rewrite Hperm. reflexivity.
  - cbn. destruct (fan_step_length seen Hnd) as [Hle Hfix].
    destruct (decide (length (fan_step es seen) = length seen)) as [Heq|Hne].
    + pose proof (Hfix Heq) as Hc.
      assert (Hc' : fan_closed es (fan_step es seen))
        by (apply (fan_closed_equiv seen); [apply fan_closed_step, Hc | exact Hc]).
      apply (fan_closed_equiv (fan_step es seen)); [|exact Hc'].
      apply fan_region_of_closed, Hc'.
    + apply IH; [apply fan_step_NoDup | apply fan_step_in_faces, Hs | lia].
Qed.

Lemma fan_closed_complete seen f0 g :
  fan_closed es seen -> f0 ∈ seen -> rtc (fan_neighbours es) f0 g -> g ∈ seen.
Proof.
  intros Hc Hf0 Hr. induction Hr as [f|f f' g Hn _ IH]; [exact Hf0|].
  apply IH. apply (Hc f f'); assumption.
Qed.

Lemma fan_neighbours_sym f g :
  fan_neighbours es f g -> fan_neighbours es g f.
Proof. intros (e & He & Hf & Hg). exists e. auto. Qed.

Lemma fan_reach_sym f g :
  rtc (fan_neighbours es) f g -> rtc (fan_neighbours es) g f.
Proof.
  intros Hr. induction Hr as [f|f f' g Hn _ IH]; [reflexivity|].
  apply rtc_r with f'; [exact IH | apply fan_neighbours_sym, Hn].
Qed.

End FanWalk.

Lemma fan_faces_length es :
  length (fan_faces es) <= length (flat_map e_link_faces es).
Proof.
  apply submseteq_length, NoDup_submseteq; [apply NoDup_remove_dups|].
  intros g. unfold fan_faces. rewrite elem_of_remove_dups. auto.
Qed.

Lemma no_boundary_edges es :
  (forall e, e ∈ es -> edge_bounded_by_two_faces e) ->
  List.filter BM_edge_is_boundary es = [] /\
  forallb (fun e => Nat.leb 1 (length (e_link_faces e))
                    && Nat.leb (length (e_link_faces e)) 2) es = true.
Proof.
  unfold edge_bounded_by_two_faces, BM_edge_is_boundary.
  induction es as [|e es IH]; intros H2; [split; reflexivity|].
  assert (He : length (e_link_faces e) = 2) by (apply H2; left).
  destruct IH as [IH1 IH2]; [intros e' He'; apply H2; right; exact He'|].
  cbn [List.filter forallb]. rewrite IH1, IH2, He. split; reflexivity.
Qed.

(** At a vertex whose edges all lie between two faces, Blender's flag says
    exactly that the fan is a single disk. *)
Lemma BM_vert_is_manifold_iff v :
  (forall e, e ∈ v_link_edges v -> edge_bounded_by_two_faces e) ->
  BM_vert_is_manifold v = true <-> fan_is_single_disk v.
Proof.
  intros H2. unfold fan_is_single_disk, BM_vert_is_manifold, vert_link_faces.
  cbv zeta.
  destruct (v_link_edges v) as [|e1 rest] eqn:Hes.
  { split; [discriminate | intros ([] & _); reflexivity]. }
  cbv beta iota.
  destruct (no_boundary_edges (e1 :: rest) H2) as [Hb Hall].
  rewrite Hall. unfold fan_start. rewrite Hb. cbv beta iota.
  change (Nat.ltb (length (@nil BMEdge)) 3) with true. cbn [andb].
  assert (He1 : length (e_link_faces e1) = 2) by (apply H2; left).
  destruct (e_link_faces e1) as [|f0 [|f1 [|]]] eqn:Hf1; try discriminate.
  cbn [take]. clear He1.
  set (es := e1 :: rest) in *.
  set (n := length (flat_map e_link_faces es)).
  set (R := fan_region n es [f0]).
  assert (Hf0 : f0 ∈ fan_faces es).
  { apply elem_of_fan_faces. exists e1. rewrite Hf1. split; left. }
  assert (Hnd : NoDup R) by (apply fan_region_NoDup, NoDup_singleton).
  assert (Hin : forall g, g ∈ R -> g ∈ fan_faces es).
  { apply fan_region_in_faces. intros g Hg.
    apply list_elem_of_singleton in Hg as ->. exact Hf0. }
  assert (Hsound : forall g, g ∈ R -> rtc (fan_neighbours es) f0 g).
  { apply fan_region_sound. intros g Hg.
    apply list_elem_of_singleton in Hg as ->. reflexivity. }
  assert (Hclosed : fan_closed es R).
  { apply fan_region_closed; [apply NoDup_singleton | |].
    - intros g Hg. apply list_elem_of_singleton in Hg as ->. exact Hf0.
    - pose proof (fan_faces_length es). unfold n. cbn [length]. lia. }
  assert (Hf0R : f0 ∈ R) by (apply fan_region_grows; left).
  rewrite Nat.eqb_eq. split.
  - intros Hlen. split; [discriminate|]. split; [exact H2|].
    assert (Hperm : R ≡ₚ fan_faces es).
    { apply submseteq_length_Permutation; [|lia].
      apply NoDup_submseteq; assumption. }
    intros f g Hf Hg. rewrite <- Hperm in Hf, Hg.
    transitivity f0; [apply fan_reach_sym|]; apply Hsound; assumption.
  - intros (_ & _ & Hconn). apply Permutation_length, NoDup_Permutation;
      [exact Hnd | apply NoDup_remove_dups|].
    intros g. split; [apply Hin|]. intros Hg.
    apply (fan_closed_complete es R f0 g Hclosed Hf0R). apply Hconn; assumption.
Qed.

Lemma bm_vert_edges m v e :
  v ∈ bm_verts (bm_from_mesh m) -> e ∈ v_link_edges v ->
  e ∈ bm_edges (bm_from_mesh m).
Proof.
  rewrite !list_elem_of_In. unfold bm_from_mesh. cbn.
  intros Hv He. apply in_map_iff in Hv as (i & <- & _). cbn in He.
  apply filter_In in He as [He _]. exact He.
Qed.

(** C9: [mesh_is_manifold] answers true exactly when every edge of the mesh
    is bounded by exactly two faces and the faces around every vertex form a
    single connected disk.  It answers true for the closed cube, and false
    for the mesh of three triangles around one edge. *)
Theorem mesh_is_manifold_iff m :
  (mesh_is_manifold (DataMesh m) = Ok true <-> manifold_in_the_standard_sense m)
  /\ (exists b, mesh_is_manifold (DataMesh m) = Ok b)
  /\ mesh_is_manifold (DataMesh cube) = Ok true
  /\ mesh_is_manifold (DataMesh three_fins) = Ok false
  /\ (exists e, e ∈ bm_edges (bm_from_mesh three_fins) /\
                length (e_link_faces e) = 3).
Proof.
  split; [|split; [eexists; reflexivity|]].
  - unfold mesh_is_manifold, manifold_in_the_standard_sense.
    pose proof (bm_vert_edges m) as Hve.
    remember (bm_from_mesh m) as bm eqn:Hbm. clear Hbm.
    assert (Hedges : all_elements_are_manifold (bm_edges bm) = true <->
                     forall e, e ∈ bm_edges bm -> edge_bounded_by_two_faces e).
    { rewrite all_elements_are_manifold_iff.
      split; intros H e He; [apply list_elem_of_In in He|
                             apply list_elem_of_In in He];
        apply H in He; apply Nat.eqb_eq; exact He. }
    split.
    + intros Hok. injection Hok as Hb. apply andb_true_iff in Hb as [He Hv].
      pose proof (proj1 Hedges He) as He2. clear He. rename He2 into He.
      split; [exact He|].
      intros v Hin. apply BM_vert_is_manifold_iff.
      * intros e Hev. apply He. apply (Hve v e); assumption.
      * apply (proj1 (all_elements_are_manifold_iff _) Hv).
        apply list_elem_of_In. exact Hin.
    + intros [He Hv]. f_equal. apply andb_true_iff.
      split; [exact (proj2 Hedges He)|].
      apply all_elements_are_manifold_iff. intros v Hin.
      apply list_elem_of_In in Hin.
      apply BM_vert_is_manifold_iff; [|apply Hv, Hin].
      intros e Hev. apply He. apply (Hve v e); assumption.
  - split; [vm_compute; reflexivity|]. split; [vm_compute; reflexivity|].
    exists {| e_verts := (0, 1); e_link_faces := [0; 1; 2] |}.
    split; [|reflexivity]. vm_compute. left.
Qed.

(** Two closed tetrahedra that touch at one vertex: every edge lies between
    two faces, yet the fan around the shared vertex falls into two parts, so
    the mesh is not manifold. *)
Example bow_tie_is_not_manifold :
  (forall e, e ∈ bm_edges (bm_from_mesh bow_tie) ->
             edge_bounded_by_two_faces e) /\
  mesh_is_manifold (DataMesh bow_tie) = Ok false.
Proof.
  split; [|vm_compute; reflexivity].
  intros e He. apply list_elem_of_In in He. vm_compute in He.
  repeat (destruct He as [<-|He]; [reflexivity|]). destruct He.
Qed.

(** Data that is not a mesh cannot be turned into a bmesh. *)
Example mesh_is_manifold_needs_a_mesh :
  mesh_is_manifold DataOther = Raise TypeError.
Proof. reflexivity. Qed.

Example path_of_empty_string : Path.to_string (Path.of_string "") = ".".
Proof. reflexivity. Qed.

Example path_is_normalised :
  Path.to_string (Path.of_string "/usr//local/./bin/quadriflow") =
  "/usr/local/bin/quadriflow".
Proof. reflexivity. Qed.

Example quadriflow_output_path_of_foo :
  Path.to_string (get_quadriflow_output_path (Path.of_string "/tmp/x/foo.obj"))
  = "/tmp/x/foo_remeshed.obj".
Proof. reflexivity. Qed.

(** * Further properties of the code *)

(** ** The SAT capability check *)

(** X1: the SAT check answers true exactly on a Linux platform on which
    both [which minisat] and [which timeout] exit with status 0. *)
Theorem sat_flag_is_allowed_true_iff h w :
  (sat_flag_is_allowed h w).1 = Ok true <->
  os_is_linux h = true /\
  spawn h ["which"; "minisat"] None = Exited 0 /\
  spawn h ["which"; "timeout"] None = Exited 0.
Proof.
  unfold sat_flag_is_allowed, mbind, M_bind.
  destruct (os_is_linux h); [|split; [discriminate | intros [[=] _]]].
  rewrite unix_executable_is_installed_eq.
  destruct (spawn h ["which"; "minisat"] None) as [c1|e1].
  - destruct (Z.eqb_spec c1 0) as [->|Hc1].
    + rewrite unix_executable_is_installed_eq.
      destruct (spawn h ["which"; "timeout"] None) as [c2|e2].
      * destruct (Z.eqb_spec c2 0) as [->|Hc2]; cbn.
        -- split; auto.
        -- split; [discriminate | intros (_ & _ & [=]); contradiction].
      * destruct e2; cbn; (split; [discriminate | intros (_ & _ & [=])]).
    + cbn. split; [discriminate | intros (_ & [=] & _); contradiction].
  - destruct e1; cbn; (split; [discriminate | intros (_ & [=] & _)]).
Qed.

(** X2: what the SAT check launches.  Off Linux it launches nothing and
    leaves the world as it is.  On Linux it launches [which minisat], and
    [which timeout] only when [which minisat] has exited with status 0;
    nothing else of the world changes. *)
Theorem sat_flag_is_allowed_launches h w :
  let found_minisat :=
    match spawn h ["which"; "minisat"] None with
    | Exited code => Z.eqb code 0
    | LaunchFailed _ => false
    end in
  (sat_flag_is_allowed h w).2 =
    add_events
      (if os_is_linux h then
         EvSpawn ["which"; "minisat"] None ::
         (if found_minisat then [EvSpawn ["which"; "timeout"] None] else [])
       else [])
      w.
Proof.
  assert (Hnil : forall w0, add_events [] w0 = w0).
  { intros [a s r t]. unfold add_events. cbn. rewrite app_nil_r. reflexivity. }
  assert (Hone : forall e w0, add_event e w0 = add_events [e] w0)
    by reflexivity.
  assert (Htwo : forall e1 e2 w0,
             add_event e2 (add_event e1 w0) = add_events [e1; e2] w0).
  { intros e1 e2 w0. unfold add_events, add_event. cbn.
    rewrite <- app_assoc. reflexivity. }
  cbv zeta. unfold sat_flag_is_allowed, mbind, M_bind.
  destruct (os_is_linux h); [|symmetry; apply Hnil].
  rewrite unix_executable_is_installed_eq.
  destruct (spawn h ["which"; "minisat"] None) as [c1|e1].
  - destruct (Z.eqb c1 0); [|apply Hone].
    rewrite unix_executable_is_installed_eq.
    destruct (spawn h ["which"; "timeout"] None) as [c2|e2]; cbn; apply Htwo.
  - destruct e1; apply Hone.
Qed.

(** The check asks the host only: in another world it answers the same and
    launches the same. *)
Lemma sat_flag_is_allowed_any_world h w0 w :
  exists evs,
    sat_flag_is_allowed h w0 = ((sat_flag_is_allowed h w0).1, add_events evs w0)
    /\ sat_flag_is_allowed h w = ((sat_flag_is_allowed h w0).1, add_events evs w).
Proof.
  assert (Hnil : forall w1, add_events [] w1 = w1).
  { intros [a s r t]. unfold add_events. cbn. rewrite app_nil_r. reflexivity. }
  assert (Htwo : forall e1 e2 w1,
             add_event e2 (add_event e1 w1) = add_events [e1; e2] w1).
  { intros e1 e2 w1. unfold add_events, add_event. cbn.
    rewrite <- app_assoc. reflexivity. }
  unfold sat_flag_is_allowed, mbind, M_bind.
  destruct (os_is_linux h).
  - rewrite !unix_executable_is_installed_eq.
    destruct (spawn h ["which"; "minisat"] None) as [c1|e1].
    + destruct (Z.eqb c1 0).
      * rewrite !unix_executable_is_installed_eq.
        exists [EvSpawn ["which"; "minisat"] None;
                EvSpawn ["which"; "timeout"] None].
        destruct (spawn h ["which"; "timeout"] None); cbn;
          rewrite !Htwo; split; reflexivity.
      * exists [EvSpawn ["which"; "minisat"] None]. split; reflexivity.
    + exists [EvSpawn ["which"; "minisat"] None].
      destruct e1; split; reflexivity.
  - exists []. rewrite !Hnil. split; reflexivity.
Qed.

(** ** The flags on the command line *)

(** X3: the command line that [remesh_with_quadriflow] launches always has
    ten elements; the second is [-mcf] exactly when [min_cost_flow] is set,
    the third [-sharp] exactly when [sharp_preserving] is set, the fourth
    [-sat] exactly when the SAT check answered true and [flip_removal] is
    set; the last six are [-i], the input path, [-o], the output path, [-f]
    and the resolution. *)
Theorem quadriflow_cmd_flag_table h i o args timeout w p b w1 :
  get_quadriflow_path_from_addon_prefs w = Ok p ->
  sat_flag_is_allowed h w = (Ok b, w1) ->
  exists cmd,
    trace (remesh_with_quadriflow h i o args timeout w).2 =
      trace w1 ++ [EvSpawn cmd (effective_timeout timeout)] /\
    length cmd = 10 /\
    cmd !! 0 = Some (Path.to_string p) /\
    (cmd !! 1 = Some "-mcf" <-> min_cost_flow args = true) /\
    (cmd !! 2 = Some "-sharp" <-> sharp_preserving args = true) /\
    (cmd !! 3 = Some "-sat" <-> b = true /\ flip_removal args = true) /\
    drop 4 cmd = ["-i"; i; "-o"; o; "-f"; py_str_int (resolution args)].
Proof.
  intros Hp Hsat. exists (quadriflow_cmd p b args i o).
  rewrite (remesh_with_quadriflow_eq h i o args timeout w p b w1 Hp Hsat).
  split; [reflexivity|]. split; [reflexivity|]. split; [reflexivity|].
  unfold quadriflow_cmd.
  destruct (min_cost_flow args), (sharp_preserving args), (flip_removal args),
    b; cbn; repeat split; try discriminate; try reflexivity;
    try (intros [[=] [=]]); try (intros [_ [=]]); try (intros [[=] _]).
Qed.

Lemma quadriflow_cmd_flag_table_witness :
  let args := {| flip_removal := true; min_cost_flow := true;
                 require_manifold := false; resolution := 1000;
                 sharp_preserving := false |} in
  let w := sample_world 1 args in
  exists cmd,
    trace (remesh_with_quadriflow (windows_host (Exited 0)) "a.obj" "b.obj"
             args None w).2 = trace w ++ [EvSpawn cmd None] /\
    length cmd = 10 /\
    cmd !! 0 = Some (Path.to_string (Path.of_string "/opt/quadriflow")) /\
    (cmd !! 1 = Some "-mcf" <-> min_cost_flow args = true) /\
    (cmd !! 2 = Some "-sharp" <-> sharp_preserving args = true) /\
    (cmd !! 3 = Some "-sat" <-> false = true /\ flip_removal args = true) /\
    drop 4 cmd = ["-i"; "a.obj"; "-o"; "b.obj"; "-f";
                  py_str_int (resolution args)].
Proof.
  exact (quadriflow_cmd_flag_table (windows_host (Exited 0)) "a.obj" "b.obj" _
           None (sample_world 1 _) (Path.of_string "/opt/quadriflow") false
           (sample_world 1 _) eq_refl eq_refl).
Defined.

(** ** The settings shown *)

(** X4: the drawing helper appends, in this order, [min_cost_flow],
    [sharp_preserving], [flip_removal] only when the SAT check answers true,
    [require_manifold] and [resolution].  It makes the SAT check each time
    it draws, leaving the world as the check leaves it, and raises when the
    check raises. *)
Theorem add_quadriflow_args_to_layout_shows h layout w :
  (add_quadriflow_args_to_layout h layout w).2 = (sat_flag_is_allowed h w).2 /\
  (add_quadriflow_args_to_layout h layout w).1 =
    match (sat_flag_is_allowed h w).1 with
    | Ok allowed =>
        Ok (layout ++ ["min_cost_flow"; "sharp_preserving"] ++
            (if allowed then ["flip_removal"] else []) ++
            ["require_manifold"; "resolution"])
    | Raise e => Raise e
    end.
Proof.
  unfold add_quadriflow_args_to_layout, mbind, M_bind, layout_prop.
  destruct (sat_flag_is_allowed h w) as [[[]|e] w1]; cbn;
    rewrite <- ?app_assoc; split; reflexivity.
Qed.

(** ** Selecting and listing objects *)

Lemma set_select_same o : set_select (select o) o = o.
Proof. destruct o. reflexivity. Qed.

Lemma reselect_twice (f g : Object -> bool) l :
  (forall x b, g (set_select b x) = g x) ->
  map (fun x => set_select (g x) x) (map (fun x => set_select (f x) x) l) =
  map (fun x => set_select (g x) x) l.
Proof.
  intros Hg. rewrite map_map. apply map_ext. intros x.
  rewrite Hg. reflexivity.
Qed.

(** Re-applying the recorded selection to the objects it was recorded
    from gives them back, when their identities are distinct. *)
Lemma reselect_recorded l :
  NoDup (map oid l) ->
  map (fun x => set_select (obj_in x (List.filter select l)) x) l = l.
Proof.
  intros Hnd. transitivity (map (fun x : Object => x) l); [|apply map_id].
  apply map_ext_in. intros x Hx.
  rewrite (obj_in_selected l Hnd x x Hx eq_refl). apply set_select_same.
Qed.

(** X5: after [select_only_objects_in_scene], listing the selected objects
    gives exactly the objects of the scene whose identity is among those
    asked for, in scene order; the scene keeps its objects' identities,
    names, types, modes and data, its active object and its settings. *)
Theorem select_only_then_list_selected objs sc :
  let sc' := select_only_objects_in_scene objs sc in
  get_selected_objects_in_scene sc' [] =
    map (set_select true) (List.filter (fun o => obj_in o objs) (objects sc)) /\
  map (set_select false) (objects sc') = map (set_select false) (objects sc) /\
  active sc' = active sc /\ autoflow sc' = autoflow sc.
Proof.
  cbv zeta. unfold get_selected_objects_in_scene.
  rewrite get_objects_in_scene_all. cbn. repeat split.
  - induction (objects sc) as [|o l IH]; [reflexivity|].
    cbn. destruct (obj_in o objs); cbn; rewrite IH; reflexivity.
  - rewrite map_map. reflexivity.
Qed.

(** X6: of two selections made one after the other, only the later counts. *)
Theorem select_only_last_wins a b sc :
  select_only_objects_in_scene a (select_only_objects_in_scene b sc) =
  select_only_objects_in_scene a sc.
Proof.
  unfold select_only_objects_in_scene, set_objects. cbn. f_equal.
  apply reselect_twice. reflexivity.
Qed.

(** X7: recording the selected objects and selecting exactly them again
    leaves the scene as it is, when the objects' identities are distinct. *)
Theorem selection_round_trip sc :
  NoDup (map oid (objects sc)) ->
  select_only_objects_in_scene (get_selected_objects_in_scene sc []) sc = sc.
Proof.
  intros Hnd. unfold get_selected_objects_in_scene.
  rewrite get_objects_in_scene_all.
  unfold select_only_objects_in_scene, set_objects.
  rewrite (reselect_recorded _ Hnd). destruct sc. reflexivity.
Qed.

Lemma selection_round_trip_witness :
  let sc := scene (sample_world 1 default_settings) in
  select_only_objects_in_scene (get_selected_objects_in_scene sc []) sc = sc.
Proof.
  apply selection_round_trip.
  apply (bool_decide_unpack _). vm_compute. exact I.
Defined.

(** With two objects of one identity the round trip can fail: the
    unselected one is found among the selected. *)
Example selection_round_trip_needs_distinct_identities :
  let twin := set_select false cube_object in
  let sc := {| objects := [cube_object; twin]; active := None;
               autoflow := default_settings |} in
  select_only_objects_in_scene (get_selected_objects_in_scene sc []) sc <> sc.
Proof. discriminate. Qed.

(** X8: measured against the objects a scene held, the objects added since
    under fresh identities are exactly what [get_objects_in_scene] finds,
    in their order; against its own objects a scene holds nothing new. *)
Theorem new_objects_are_found sc news :
  (forall n, In n news -> obj_in n (objects sc) = false) ->
  get_objects_in_scene (set_objects (objects sc ++ news) sc) (objects sc) = news
  /\ get_objects_in_scene sc (objects sc) = [].
Proof.
  intros Hfresh. unfold get_objects_in_scene. cbn. split.
  - rewrite List.filter_app.
    rewrite (no_new_objects (objects sc) (objects sc) eq_refl). cbn.
    induction news as [|n news IH]; [reflexivity|].
    cbn. rewrite (Hfresh n (or_introl eq_refl)). cbn. f_equal.
    apply IH. intros n' Hn'. apply Hfresh. right. exact Hn'.
  - apply no_new_objects. reflexivity.
Qed.

Lemma new_objects_are_found_witness :
  let sc := scene (sample_world 1 default_settings) in
  get_objects_in_scene (set_objects (objects sc ++ [remeshed_object]) sc)
    (objects sc) = [remeshed_object]
  /\ get_objects_in_scene sc (objects sc) = [].
Proof.
  apply (new_objects_are_found (scene (sample_world 1 default_settings))
           [remeshed_object]).
  intros n [<-|[]]. reflexivity.
Defined.

(** ** Where the files go *)

Lemma string_app_cons c a b : String c a +:+ b = String c (a +:+ b).
Proof. reflexivity. Qed.

Lemma string_app_nil_r a : a +:+ "" = a.
Proof.
  induction a as [|c a IH]; [reflexivity|].
  rewrite string_app_cons, IH. reflexivity.
Qed.

Lemma string_app_length a b :
  String.length (a +:+ b) = String.length a + String.length b.
Proof.
  induction a as [|c a IH]; [reflexivity|].
  rewrite string_app_cons. cbn [String.length Nat.add]. rewrite IH.
  reflexivity.
Qed.

Lemma string_app_assoc a b c : (a +:+ b) +:+ c = a +:+ (b +:+ c).
Proof.
  induction a as [|x a IH]; [reflexivity|].
  rewrite !string_app_cons, IH. reflexivity.
Qed.

Lemma has_char_app c a b : has_char c (a +:+ b) = has_char c a || has_char c b.
Proof.
  induction a as [|x a IH]; [reflexivity|].
  rewrite string_app_cons. cbn [has_char]. rewrite IH, orb_assoc. reflexivity.
Qed.

Lemma substring_all s : substring 0 (String.length s) s = s.
Proof.
  induction s as [|c s IH]; [reflexivity|].
  cbn [String.length substring]. rewrite IH. reflexivity.
Qed.

Lemma substring_app_left a b : substring 0 (String.length a) (a +:+ b) = a.
Proof.
  induction a as [|c a IH]; [destruct b; reflexivity|].
  rewrite string_app_cons. cbn [String.length substring]. rewrite IH.
  reflexivity.
Qed.

Lemma substring_app_right a b :
  substring (String.length a) (String.length b) (a +:+ b) = b.
Proof.
  induction a as [|c a IH]; [apply substring_all|].
  rewrite string_app_cons. cbn [String.length substring]. exact IH.
Qed.

Lemma rfind_dot_app a b i found :
  Path.rfind_dot (a +:+ b) i found =
  Path.rfind_dot b (i + String.length a) (Path.rfind_dot a i found).
Proof.
  revert i found. induction a as [|c a IH]; intros i found.
  - cbn [String.length Path.rfind_dot]. rewrite Nat.add_0_r. reflexivity.
  - rewrite string_app_cons. cbn [String.length Path.rfind_dot].
    rewrite IH. f_equal. lia.
Qed.

Lemma rfind_dot_no_dot s i found :
  has_char "." s = false -> Path.rfind_dot s i found = found.
Proof.
  revert i found. induction s as [|c s IH]; intros i found H; [reflexivity|].
  cbn [has_char Path.rfind_dot] in H |- *.
  apply orb_false_iff in H as [Hc Hs]. rewrite Hc. apply IH, Hs.
Qed.

Lemma split_slash_no_slash s cur :
  has_char "/" s = false -> Path.split_slash s cur = [cur +:+ s].
Proof.
  revert cur. induction s as [|c s IH]; intros cur H.
  - cbn [Path.split_slash]. rewrite string_app_nil_r. reflexivity.
  - cbn [has_char Path.split_slash] in H |- *.
    apply orb_false_iff in H as [Hc Hs]. rewrite Hc.
    rewrite (IH _ Hs), string_app_assoc. reflexivity.
Qed.

Lemma parse_root_no_slash s : has_char "/" s = false -> Path.parse_root s = "".
Proof.
  destruct s as [|c s]; [reflexivity|]. cbn [has_char]. intros H.
  apply orb_false_iff in H as [Hc _].
  destruct c as [[] [] [] [] [] [] [] []]; try reflexivity; discriminate.
Qed.

(** A name without a slash, other than the empty name and the dot, is a
    path of one part. *)
Lemma of_string_one_part s :
  has_char "/" s = false -> s <> "" -> s <> "." ->
  Path.of_string s = Path.mk "" [s].
Proof.
  intros Hs He Hd. unfold Path.of_string.
  rewrite (parse_root_no_slash s Hs), (split_slash_no_slash s "" Hs).
  change ("" +:+ s) with s.
  rewrite filter_singleton_True; [reflexivity | exact [] |].
  unfold Path.is_part. apply String.eqb_neq in He, Hd. rewrite He, Hd.
  reflexivity.
Qed.

Lemma joinpath_one_part r ps s :
  has_char "/" s = false -> s <> "" -> s <> "." ->
  Path.joinpath (Path.mk r ps) s = Path.mk r (ps ++ [s]).
Proof.
  intros Hs He Hd. unfold Path.joinpath.
  rewrite (of_string_one_part s Hs He Hd). reflexivity.
Qed.

Lemma longer_than_dot a b : String.length a + String.length b >= 2 ->
  a +:+ b <> "" /\ a +:+ b <> ".".
Proof.
  intros Hlen. split; intros Heq;
    apply (f_equal String.length) in Heq; rewrite string_app_length in Heq;
    cbn in Heq; lia.
Qed.

Lemma nonempty_length s : s <> "" -> 1 <= String.length s.
Proof. destruct s; [congruence | cbn; lia]. Qed.

(** The stem and the suffix of a file name [base.ext]. *)
Lemma stem_and_suffix_of_extension r ps base ext :
  base <> "" -> ext <> "" -> has_char "." ext = false ->
  let p := Path.mk r (ps ++ [base +:+ "." +:+ ext]) in
  Path.stem p = base /\ Path.suffix p = "." +:+ ext.
Proof.
  intros Hb He Hdot.
  pose proof (nonempty_length base Hb) as Hlb.
  pose proof (nonempty_length ext He) as Hle.
  unfold Path.stem, Path.suffix, Path.name. cbn [Path.parts].
  rewrite last_last.
  assert (Hidx : Path.suffix_index (base +:+ "." +:+ ext)
                 = Some (String.length base)).
  { unfold Path.suffix_index. rewrite rfind_dot_app.
    rewrite (string_app_cons "." "" ext). cbn [Path.rfind_dot].
    change (Ascii.eqb "." ".") with true. cbv iota.
    change ("" +:+ ext) with ext.
    rewrite (rfind_dot_no_dot ext _ _ Hdot).
    rewrite string_app_length. cbn [String.length Nat.add].
    replace (0 <? String.length base)%nat with true
      by (symmetry; apply Nat.ltb_lt; lia).
    replace (String.length base <?
             String.length base + S (String.length ext) - 1)%nat
      with true by (symmetry; apply Nat.ltb_lt; lia).
    reflexivity. }
  rewrite Hidx, substring_app_left.
  replace (String.length (base +:+ "." +:+ ext) - String.length base)
    with (String.length ("." +:+ ext))
    by (rewrite !string_app_length; lia).
  rewrite substring_app_right. split; reflexivity.
Qed.

(** X9: where [pathlib.Path] is the POSIX flavour, for a file name
    [base.ext], with a non-empty base, a non-empty extension without a dot
    and no slash in either, [get_quadriflow_output_path] keeps the
    directory and turns the name into [base_remeshed.ext]. *)
Theorem output_path_inserts_before_extension h r ps base ext :
  pathlib_is_posix h ->
  base <> "" -> ext <> "" ->
  has_char "." ext = false ->
  has_char "/" base = false -> has_char "/" ext = false ->
  get_quadriflow_output_path (Path.mk r (ps ++ [base +:+ "." +:+ ext])) =
  Path.mk r (ps ++ [base +:+ "_remeshed." +:+ ext]).
Proof.
  intros _ Hb He Hdot Hsb Hse.
  pose proof (nonempty_length base Hb) as Hlb.
  destruct (stem_and_suffix_of_extension r ps base ext Hb He Hdot)
    as [Hstem Hsuffix].
  unfold get_quadriflow_output_path. rewrite Hstem, Hsuffix.
  unfold Path.parent. cbn [Path.parts Path.root]. rewrite removelast_last.
  change (String.concat "" [base; "_remeshed"; "." +:+ ext])
    with (base +:+ "_remeshed." +:+ ext).
  rewrite joinpath_one_part; [reflexivity | | |].
  - rewrite has_char_app, (has_char_app "/" "_remeshed." ext), Hsb, Hse.
    reflexivity.
  - apply longer_than_dot. rewrite string_app_length. cbn. lia.
  - apply longer_than_dot. rewrite string_app_length. cbn. lia.
Qed.

Lemma output_path_inserts_before_extension_witness :
  pathlib_is_posix (linux_host (Exited 0)) /\
  get_quadriflow_output_path (Path.mk "/" (["tmp"; "x"] ++ ["foo" +:+ "." +:+ "obj"]))
  = Path.mk "/" (["tmp"; "x"] ++ ["foo" +:+ "_remeshed." +:+ "obj"]).
Proof.
  split; [reflexivity|].
  apply (output_path_inserts_before_extension (linux_host (Exited 0)));
    first [discriminate | reflexivity].
Defined.

(** X10: where [pathlib.Path] is the POSIX flavour, a file name without a
    dot (and without a slash) has no extension:
    [get_quadriflow_output_path] keeps the directory and puts [_remeshed]
    at the end of the name. *)
Theorem output_path_without_extension h r ps nm :
  pathlib_is_posix h ->
  nm <> "" -> has_char "." nm = false -> has_char "/" nm = false ->
  get_quadriflow_output_path (Path.mk r (ps ++ [nm])) =
  Path.mk r (ps ++ [nm +:+ "_remeshed"]).
Proof.
  intros _ Hn Hdot Hs. pose proof (nonempty_length nm Hn) as Hl.
  unfold get_quadriflow_output_path, Path.stem, Path.suffix, Path.name,
    Path.parent, Path.suffix_index. cbn [Path.parts Path.root].
  rewrite last_last, removelast_last, (rfind_dot_no_dot nm _ _ Hdot).
  change (String.concat "" [nm; "_remeshed"; ""]) with (nm +:+ "_remeshed").
  rewrite joinpath_one_part; [reflexivity | | |].
  - rewrite has_char_app, Hs. reflexivity.
  - apply longer_than_dot. cbn. lia.
  - apply longer_than_dot. cbn. lia.
Qed.

Lemma output_path_without_extension_witness :
  pathlib_is_posix (linux_host (Exited 0)) /\
  get_quadriflow_output_path (Path.mk "" ([] ++ ["mesh"])) =
  Path.mk "" ([] ++ ["mesh" +:+ "_remeshed"]).
Proof.
  split; [reflexivity|].
  apply (output_path_without_extension (linux_host (Exited 0)));
    first [discriminate | reflexivity].
Defined.

(** The same happens to a name whose only dot comes first, and to a name
    that ends in a dot. *)
Example output_path_of_dot_file :
  Path.to_string (get_quadriflow_output_path (Path.of_string "/tmp/.obj")) =
  "/tmp/.obj_remeshed" /\
  Path.to_string (get_quadriflow_output_path (Path.of_string "/tmp/foo.")) =
  "/tmp/foo._remeshed".
Proof. split; reflexivity. Qed.


(** X11: where [pathlib.Path] is the POSIX flavour, [execute] exports an
    object whose name is not empty and holds no slash to the file
    [name.obj] directly inside the temporary directory of the run, and
    expects the result beside it, as [name_remeshed.obj]. *)
Theorem execute_paths_in_temp_directory h nm :
  pathlib_is_posix h ->
  nm <> "" -> has_char "/" nm = false ->
  export_path (mkdtemp h) nm =
    Path.mk (Path.root (Path.of_string (mkdtemp h)))
      (Path.parts (Path.of_string (mkdtemp h)) ++ [nm +:+ ".obj"]) /\
  remeshed_path (mkdtemp h) nm =
    Path.mk (Path.root (Path.of_string (mkdtemp h)))
      (Path.parts (Path.of_string (mkdtemp h)) ++ [nm +:+ "_remeshed.obj"]) /\
  Path.parent (export_path (mkdtemp h) nm) = Path.of_string (mkdtemp h) /\
  Path.parent (remeshed_path (mkdtemp h) nm) = Path.of_string (mkdtemp h).
Proof.
  intros _ Hn Hs. pose proof (nonempty_length nm Hn) as Hl.
  generalize (mkdtemp h). intros d.
  unfold remeshed_path.
  assert (Hexp : export_path d nm =
                 Path.mk (Path.root (Path.of_string d))
                   (Path.parts (Path.of_string d) ++ [nm +:+ ".obj"])).
  { unfold export_path. destruct (Path.of_string d) as [r ps].
    apply joinpath_one_part.
    - rewrite has_char_app, Hs. reflexivity.
    - apply longer_than_dot. cbn. lia.
    - apply longer_than_dot. cbn. lia. }
  rewrite Hexp. destruct (Path.of_string d) as [r ps]. cbn [Path.root Path.parts].
  change (nm +:+ ".obj") with (nm +:+ "." +:+ "obj").
  destruct (stem_and_suffix_of_extension r ps nm "obj" Hn) as [Hstem Hsuffix];
    [discriminate | reflexivity |].
  unfold get_quadriflow_output_path. rewrite Hstem, Hsuffix.
  unfold Path.parent. cbn [Path.parts Path.root]. rewrite removelast_last.
  change (String.concat "" [nm; "_remeshed"; "." +:+ "obj"])
    with (nm +:+ "_remeshed.obj").
  rewrite joinpath_one_part.
  - cbn [Path.parts Path.root]. rewrite removelast_last. repeat split.
  - rewrite has_char_app, Hs. reflexivity.
  - apply longer_than_dot. cbn. lia.
  - apply longer_than_dot. cbn. lia.
Qed.

Lemma execute_paths_in_temp_directory_witness :
  pathlib_is_posix (linux_host (Exited 0)) /\
  Path.to_string (export_path (mkdtemp (linux_host (Exited 0))) "Cube")
    = "/tmp/tmpq1w2e3/Cube.obj" /\
  Path.to_string (remeshed_path (mkdtemp (linux_host (Exited 0))) "Cube")
    = "/tmp/tmpq1w2e3/Cube_remeshed.obj".
Proof.
  split; [reflexivity|].
  destruct (execute_paths_in_temp_directory (linux_host (Exited 0)) "Cube")
    as (-> & -> & _); first [discriminate | reflexivity | idtac].
  split; reflexivity.
Defined.



Example export_path_escapes :
  Path.to_string (export_path "/tmp/tmpq1w2e3" "/home/me/Cube") =
  "/home/me/Cube.obj".
Proof. reflexivity. Qed.

(** ** What a run leaves alone *)

Lemma frame_refl w : frame 0 w w.
Proof.
  repeat split; try (exists []; rewrite app_nil_r; auto).
Qed.

Lemma frame_weaken a b w w' : a <= b -> frame a w w' -> frame b w w'.
Proof.
  intros Hab (Ha & Hs & Ht & rs & Hr & Hl). repeat split; auto.
  exists rs. split; [exact Hr | lia].
Qed.

Lemma frame_trans a b w w' w'' :
  frame a w w' -> frame b w' w'' -> frame (a + b) w w''.
Proof.
  intros (Ha & Hs & (ev & Ht) & rs & Hr & Hl)
         (Ha' & Hs' & (ev' & Ht') & rs' & Hr' & Hl').
  repeat split; try congruence.
  - exists (ev ++ ev'). rewrite Ht', Ht, app_assoc. reflexivity.
  - exists (rs ++ rs'). rewrite Hr', Hr, app_assoc, length_app.
    split; [reflexivity | lia].
Qed.

Lemma frame_add_events evs w : frame 0 w (add_events evs w).
Proof.
  repeat split; [exists evs; reflexivity|].
  exists []. rewrite app_nil_r. auto.
Qed.

Lemma frame_add_event e w : frame 0 w (add_event e w).
Proof. apply (frame_add_events [e]). Qed.

Lemma frame_add_report r w : frame 1 w (add_report r w).
Proof.
  repeat split; [exists []; rewrite app_nil_r; reflexivity|].
  exists [r]. auto.
Qed.

Lemma frame_set_scene sc w :
  autoflow sc = autoflow (scene w) -> frame 0 w (set_scene sc w).
Proof.
  intros Hs. repeat split; try exact Hs;
    try (exists []; rewrite app_nil_r; auto).
Qed.

Lemma keeps_ret n {A : Type} (a : A) : keeps (frame n) (mret a).
Proof. intros w. apply (frame_weaken 0); [lia | apply frame_refl]. Qed.

Lemma keeps_lift n {A : Type} (r : Res A) : keeps (frame n) (lift r).
Proof. intros w. apply (frame_weaken 0); [lia | apply frame_refl]. Qed.

Lemma keeps_raise n {A : Type} (e : Exn) : keeps (frame n) (@raise A e).
Proof. intros w. apply (frame_weaken 0); [lia | apply frame_refl]. Qed.

Lemma keeps_get_world n : keeps (frame n) get_world.
Proof. intros w. apply (frame_weaken 0); [lia | apply frame_refl]. Qed.

Lemma keeps_emit n e : keeps (frame n) (emit e).
Proof. intros w. apply (frame_weaken 0); [lia | apply frame_add_event]. Qed.

Lemma keeps_bind a b {A B : Type} (m : M A) (k : A -> M B) :
  keeps (frame a) m -> (forall x, keeps (frame b) (k x)) ->
  keeps (frame (a + b)) (m ≫= k).
Proof.
  intros Hm Hk w. unfold mbind, M_bind. specialize (Hm w).
  destruct (m w) as [[x|e] w'].
  - apply (frame_trans a b w w'); [exact Hm | apply Hk].
  - apply (frame_weaken a); [lia | exact Hm].
Qed.

Lemma keeps_try a b {A B : Type} (body : M A) handler (orelse : A -> M B) :
  keeps (frame a) body ->
  (forall e hd, handler e = Some hd -> keeps (frame b) hd) ->
  (forall x, keeps (frame b) (orelse x)) ->
  keeps (frame (a + b)) (try_except_else body handler orelse).
Proof.
  intros Hb Hh Ho w. unfold try_except_else. specialize (Hb w).
  destruct (body w) as [[x|e] w'].
  - apply (frame_trans a b w w'); [exact Hb | apply Ho].
  - destruct (handler e) as [hd|] eqn:Hhd.
    + apply (frame_trans a b w w'); [exact Hb | apply (Hh e hd Hhd)].
    + apply (frame_weaken a); [lia | exact Hb].
Qed.

Lemma keeps_sat_flag_is_allowed h : keeps (frame 0) (sat_flag_is_allowed h).
Proof.
  intros w. destruct (sat_flag_is_allowed_any_world h w w) as (evs & Heq & _).
  rewrite Heq. apply frame_add_events.
Qed.

Lemma keeps_subprocess_run h cmd check timeout :
  keeps (frame 0) (subprocess_run h cmd check timeout).
Proof.
  intros w. rewrite subprocess_run_eq.
  destruct (spawn h cmd timeout); apply frame_add_event.
Qed.

Lemma keeps_remesh_with_quadriflow h i o af timeout :
  keeps (frame 0) (remesh_with_quadriflow h i o af timeout).
Proof.
  unfold remesh_with_quadriflow.
  apply (keeps_bind 0 0); [apply keeps_get_world | intros w0].
  apply (keeps_bind 0 0); [apply keeps_lift | intros p].
  apply (keeps_bind 0 0); [apply keeps_sat_flag_is_allowed | intros b].
  apply (keeps_bind 0 0); [apply keeps_subprocess_run | intros c].
  apply keeps_ret.
Qed.

Lemma keeps_report ty msg : keeps (frame 1) (report ty msg).
Proof.
  unfold report. destruct ty; try apply keeps_raise.
  destruct (forallb _ items); [|apply keeps_raise].
  apply (keeps_bind 1 0); [|intros; apply keeps_ret].
  intros w. apply frame_add_report.
Qed.

Lemma keeps_execute_handler e hd :
  execute_handler e = Some hd -> keeps (frame 1) hd.
Proof.
  unfold execute_handler.
  destruct (isinstance_PermissionError e).
  - intros Hhd. injection Hhd as <-.
    apply (keeps_bind 0 1); [apply keeps_emit | intros _].
    apply (keeps_bind 1 0);
      [apply (keeps_report (VSet ["ERROR"]) msg_permission_error)
      | intros _; apply keeps_ret].
  - destruct (isinstance_SubprocessError e); [|discriminate].
    intros Hhd. injection Hhd as <-.
    apply (keeps_bind 0 1); [apply keeps_emit | intros _].
    apply (keeps_bind 1 0);
      [apply (keeps_report (VSet ["ERROR"]) msg_subprocess_error)
      | intros _; apply keeps_ret].
Qed.

Lemma keeps_export h filepath sel tri :
  keeps (frame 0) (bpy_ops_export_scene_obj h filepath sel tri).
Proof.
  intros w. unfold bpy_ops_export_scene_obj.
  destruct (export_scene_obj h filepath sel tri _) as [r so].
  apply (frame_trans 0 0 w (add_event (EvExport filepath sel tri) w));
    [apply frame_add_event | apply frame_set_scene; reflexivity].
Qed.

Lemma keeps_import h filepath :
  keeps (frame 0) (bpy_ops_import_scene_obj h filepath).
Proof.
  intros w. unfold bpy_ops_import_scene_obj.
  destruct (import_scene_obj h filepath _) as [r so].
  apply (frame_trans 0 0 w (add_event (EvImport filepath) w));
    [apply frame_add_event | apply frame_set_scene; reflexivity].
Qed.

Lemma keeps_try_remesh_import h ip op af timeout :
  keeps (frame 1) (try_remesh_import h ip op af timeout).
Proof.
  unfold try_remesh_import.
  apply (keeps_try 0 1);
    [apply keeps_remesh_with_quadriflow | apply keeps_execute_handler|].
  intros _. apply (keeps_bind 0 1); [apply keeps_emit | intros _].
  apply (keeps_bind 0 1); [apply keeps_import | intros _]. apply keeps_emit.
Qed.

Lemma keeps_export_remesh_import h ao af d :
  keeps (frame 1) (export_remesh_import h ao af d).
Proof.
  unfold export_remesh_import.
  apply (keeps_bind 0 1); [apply keeps_lift | intros nm].
  apply (keeps_bind 0 1); [apply keeps_emit | intros _].
  apply (keeps_bind 0 1); [apply keeps_export | intros _].
  apply (keeps_bind 0 1); [apply keeps_emit | intros _].
  apply (keeps_bind 0 1); [apply keeps_get_world | intros w0].
  apply (keeps_bind 0 1); [apply keeps_lift | intros t].
  apply keeps_try_remesh_import.
Qed.

Lemma keeps_modify_scene f :
  (forall sc, autoflow (f sc) = autoflow sc) -> keeps (frame 0) (modify_scene f).
Proof. intros Hf w. apply frame_set_scene, Hf. Qed.

Lemma keeps_fix_selection io iso : keeps (frame 0) (fix_selection io iso).
Proof.
  intros w. rewrite fix_selection_eq. apply frame_set_scene.
  unfold fixed_scene. destruct (get_objects_in_scene (scene w) io); reflexivity.
Qed.

Lemma keeps_with_TemporaryDirectory n h {A : Type} (body : string -> M A) :
  (forall d, keeps (frame n) (body d)) ->
  keeps (frame n) (with_TemporaryDirectory h body).
Proof.
  intros Hb w. unfold with_TemporaryDirectory.
  specialize (Hb (mkdtemp h) (add_event (EvTempDirCreate (mkdtemp h)) w)).
  destruct (body _ _) as [r w'].
  apply (frame_weaken (0 + n + 0)); [lia|].
  apply (frame_trans (0 + n) 0 _ w'); [|apply frame_add_event].
  apply (frame_trans 0 n _ (add_event (EvTempDirCreate (mkdtemp h)) w));
    [apply frame_add_event | exact Hb].
Qed.

(** X13: whatever the host does, and whether it returns or raises, a run
    of [execute] leaves the add-on preferences and the remesh settings as
    they are, removes nothing from the trace of effects or from the
    reports, and adds at most one report. *)
Theorem execute_leaves_alone h w :
  addons (execute h w).2 = addons w /\
  autoflow (scene (execute h w).2) = autoflow (scene w) /\
  (exists evs, trace (execute h w).2 = trace w ++ evs) /\
  (exists rs, reports (execute h w).2 = reports w ++ rs /\ length rs <= 1).
Proof.
  change (frame 1 w (execute h w).2). revert w.
  change (keeps (frame 1) (execute h)). unfold execute.
  apply (keeps_bind 0 1); [apply keeps_get_world | intros w0].
  apply (keeps_bind 0 1); [apply keeps_lift | intros refused].
  destruct refused.
  - apply (keeps_bind 1 0); [apply keeps_report | intros _; apply keeps_ret].
  - apply (keeps_bind 0 1); [apply keeps_modify_scene; reflexivity | intros _].
    apply (keeps_bind 1 0);
      [apply keeps_with_TemporaryDirectory; intros d;
       apply keeps_export_remesh_import | intros _].
    apply (keeps_bind 0 0); [apply keeps_fix_selection | intros _].
    apply keeps_ret.
Qed.

(** ** Runs of the operator, step by step *)

(** Past the manifold check, [execute] narrows the selection, runs the body
    of the [with] block between the creation and the removal of the
    temporary directory, and fixes the selection only if the body
    returned. *)
Lemma execute_run h w :
  manifold_check_fails (active_object (scene w)) (autoflow (scene w))
    = Ok false ->
  execute h w =
    match export_remesh_import h (active_object (scene w))
            (autoflow (scene w)) (mkdtemp h)
            (add_event (EvTempDirCreate (mkdtemp h)) (isolated w)) with
    | (Ok _, w2) =>
        (Ok (VSet ["FINISHED"]),
         set_scene
           (fixed_scene (objects (scene w))
              (List.filter select (objects (scene w))) (scene w2))
           (add_event (EvTempDirCleanup (mkdtemp h)) w2))
    | (Raise e, w2) => (Raise e, add_event (EvTempDirCleanup (mkdtemp h)) w2)
    end.
Proof.
  intros Hm. unfold execute, mbind, M_bind, get_world, lift. rewrite Hm.
  unfold modify_scene, modify, with_TemporaryDirectory.
  change (set_scene
            (select_only_objects_in_scene
               (singleton_objects (active_object (scene w))) (scene w)) w)
    with (isolated w).
  destruct (export_remesh_import h _ _ _ _) as [[[]|e] w2]; [|reflexivity].
  rewrite fix_selection_eq. unfold mret, M_ret.
  unfold get_selected_objects_in_scene. rewrite get_objects_in_scene_all.
  reflexivity.
Qed.

(** A run that is refused, or whose manifold check raises, does nothing
    to the trace. *)
Lemma execute_stopped_at_check h w :
  manifold_check_fails (active_object (scene w)) (autoflow (scene w))
    <> Ok false ->
  trace (execute h w).2 = trace w.
Proof.
  intros Hm. unfold execute, mbind, M_bind, get_world, lift.
  destruct (manifold_check_fails _ _) as [[]|e]; [|congruence|]; reflexivity.
Qed.

(** X14: the temporary directory is removed on every way out.  A run of
    [execute] that gets past the manifold check creates the directory
    first and removes it last, whether the run returns or raises; a run
    that does not get past the check creates nothing. *)
Theorem temporary_directory_always_removed h w :
  match manifold_check_fails (active_object (scene w)) (autoflow (scene w)) with
  | Ok false =>
      exists evs,
        trace (execute h w).2 =
          trace w ++ [EvTempDirCreate (mkdtemp h)] ++ evs ++
          [EvTempDirCleanup (mkdtemp h)]
  | _ => trace (execute h w).2 = trace w
  end.
Proof.
  destruct (manifold_check_fails _ _) as [[]|e] eqn:Hm;
    try (apply execute_stopped_at_check; rewrite Hm; discriminate).
  rewrite (execute_run h w Hm).
  pose proof (keeps_export_remesh_import h (active_object (scene w))
                (autoflow (scene w)) (mkdtemp h)
                (add_event (EvTempDirCreate (mkdtemp h)) (isolated w)))
    as (_ & _ & (evs & Hevs) & _).
  destruct (export_remesh_import h _ _ _ _) as [[[]|e] w2];
    exists evs; cbn in Hevs |- *; rewrite Hevs, <- !app_assoc; reflexivity.
Qed.

(** The preferences are read from the add-ons table alone. *)
Lemma preference_reads_only_addons w w' :
  addons w' = addons w ->
  get_quadriflow_timeout_from_addon_prefs w' =
    get_quadriflow_timeout_from_addon_prefs w /\
  get_quadriflow_path_from_addon_prefs w' =
    get_quadriflow_path_from_addon_prefs w.
Proof.
  intros Ha.
  unfold get_quadriflow_timeout_from_addon_prefs,
    get_quadriflow_path_from_addon_prefs, get_addon_preference,
    get_addon_preferences.
  rewrite Ha. split; reflexivity.
Qed.

(** The body of the [with] block, for an active object [o]. *)
Lemma export_remesh_import_run h o af d w :
  let ip := Path.to_string (export_path d (name o)) in
  let op := Path.to_string (remeshed_path d (name o)) in
  let w1 := add_event (EvExport ip true true)
              (add_event (EvPrint msg_exporting) w) in
  export_remesh_import h (Some o) af d w =
    match export_scene_obj h ip true true (scene_objects (scene w)) with
    | (Ok _, so) =>
        let w2 := add_event (EvPrint msg_remeshing)
                    (set_scene (set_scene_objects so (scene w)) w1) in
        match get_quadriflow_timeout_from_addon_prefs w with
        | Ok t => try_remesh_import h ip op af (Some t) w2
        | Raise e => (Raise e, w2)
        end
    | (Raise e, so) =>
        (Raise e, set_scene (set_scene_objects so (scene w)) w1)
    end.
Proof.
  cbv zeta. unfold export_remesh_import, mbind, M_bind, lift, get_world.
  cbn [attr_name]. unfold print, emit, modify, bpy_ops_export_scene_obj.
  cbn [scene add_event].
  change (Path.joinpath (Path.of_string d) (name o +:+ ".obj"))
    with (export_path d (name o)).
  change (get_quadriflow_output_path (export_path d (name o)))
    with (remeshed_path d (name o)).
  destruct (export_scene_obj h _ true true _) as [[[]|e] so]; [|reflexivity].
  match goal with
  | |- context [get_quadriflow_timeout_from_addon_prefs ?w'] =>
      rewrite (proj1 (preference_reads_only_addons w w' eq_refl))
  end.
  destruct (get_quadriflow_timeout_from_addon_prefs w); reflexivity.
Qed.

(** The [try] statement, once the path and the SAT check are known. *)
Lemma try_remesh_import_run h ip op af timeout w p b w1 :
  get_quadriflow_path_from_addon_prefs w = Ok p ->
  sat_flag_is_allowed h w = (Ok b, w1) ->
  let cmd := quadriflow_cmd p b af ip op in
  let ws := add_event (EvSpawn cmd (effective_timeout timeout)) w1 in
  try_remesh_import h ip op af timeout w =
    match spawn h cmd (effective_timeout timeout) with
    | Exited _ =>
        let wi := add_event (EvImport op)
                    (add_event (EvPrint msg_importing) ws) in
        match import_scene_obj h op (scene_objects (scene w1)) with
        | (Ok _, so) =>
            (Ok tt,
             add_event (EvPrint msg_finished)
               (set_scene (set_scene_objects so (scene w1)) wi))
        | (Raise e, so) =>
            (Raise e, set_scene (set_scene_objects so (scene w1)) wi)
        end
    | LaunchFailed e =>
        if isinstance_PermissionError e then
          (Ok tt, add_report (["ERROR"], msg_permission_error)
                    (add_event (EvPrintExn e) ws))
        else if isinstance_SubprocessError e then
          (Ok tt, add_report (["ERROR"], msg_subprocess_error)
                    (add_event (EvPrintExn e) ws))
        else (Raise e, ws)
    end.
Proof.
  intros Hp Hsat. cbv zeta. unfold try_remesh_import, try_except_else.
  rewrite (remesh_with_quadriflow_eq h ip op af timeout w p b w1 Hp Hsat).
  destruct (spawn h _ _) as [code|e].
  - unfold mbind, M_bind, print, emit, modify, bpy_ops_import_scene_obj.
    cbn [scene add_event].
    destruct (import_scene_obj h op _) as [[[]|e] so]; reflexivity.
  - unfold execute_handler.
    destruct (isinstance_PermissionError e); [reflexivity|].
    destruct (isinstance_SubprocessError e); reflexivity.
Qed.

Lemma sat_flag_is_allowed_transport h w w' r evs :
  sat_flag_is_allowed h w = (r, add_events evs w) ->
  sat_flag_is_allowed h w' = (r, add_events evs w').
Proof.
  intros Hsat.
  destruct (sat_flag_is_allowed_any_world h w w') as (evs' & Hw & Hw').
  rewrite Hsat in Hw. cbn [fst] in Hw. injection Hw as Hev.
  apply app_inv_head in Hev. subst evs'. rewrite Hw', Hsat. reflexivity.
Qed.

Lemma scene_objects_set so sc :
  scene_objects (set_scene_objects so sc) = so.
Proof. destruct so. reflexivity. Qed.

(** X15: a run in which everything works.  With an active object, the
    manifold check passed, the export done, both preferences readable, the
    SAT check answered and QuadriFlow exited (with any status), [execute]
    returns [FINISHED] without a report, and what it did outside is, in this
    order: create the temporary directory, export the selection to
    [name.obj] in it, make the SAT check, launch QuadriFlow on that file
    with the timeout of the preferences, import the file named after [-o],
    remove the directory.  The scene is the imported one with the selection
    fixed. *)
Theorem execute_success_run h w o so1 so2 t p b evs code :
  let d := mkdtemp h in
  let af := autoflow (scene w) in
  let ip := Path.to_string (export_path d (name o)) in
  let op := Path.to_string (remeshed_path d (name o)) in
  let cmd := quadriflow_cmd p b af ip op in
  active_object (scene w) = Some o ->
  manifold_check_fails (Some o) af = Ok false ->
  export_scene_obj h ip true true (scene_objects (scene (isolated w)))
    = (Ok tt, so1) ->
  get_quadriflow_timeout_from_addon_prefs w = Ok t ->
  get_quadriflow_path_from_addon_prefs w = Ok p ->
  sat_flag_is_allowed h w = (Ok b, add_events evs w) ->
  spawn h cmd (effective_timeout (Some t)) = Exited code ->
  import_scene_obj h op so1 = (Ok tt, so2) ->
  (execute h w).1 = Ok (VSet ["FINISHED"]) /\
  trace (execute h w).2 =
    trace w ++
    [EvTempDirCreate d; EvPrint msg_exporting; EvExport ip true true;
     EvPrint msg_remeshing] ++ evs ++
    [EvSpawn cmd (effective_timeout (Some t)); EvPrint msg_importing;
     EvImport op; EvPrint msg_finished; EvTempDirCleanup d] /\
  cmd !! 5 = Some ip /\ cmd !! 7 = Some op /\
  reports (execute h w).2 = reports w /\
  scene (execute h w).2 =
    fixed_scene (objects (scene w)) (List.filter select (objects (scene w)))
      (set_scene_objects so2 (scene w)).
Proof.
  intros d af ip op cmd Ha Hm Hexp Ht Hp Hsat Hspawn Himp.
  rewrite execute_run by (rewrite Ha; exact Hm).
  rewrite Ha. fold d af.
  rewrite (export_remesh_import_run h o af d). cbv zeta. fold ip op.
  change (scene (add_event (EvTempDirCreate d) (isolated w)))
    with (scene (isolated w)).
  rewrite Hexp.
  match goal with
  | |- context [get_quadriflow_timeout_from_addon_prefs ?w'] =>
      rewrite (proj1 (preference_reads_only_addons w w' eq_refl)), Ht
  end.
  match goal with
  | |- context [try_remesh_import h ip op af (Some t) ?w2] =>
      rewrite (try_remesh_import_run h ip op af (Some t) w2 p b
                 (add_events evs w2)
                 (eq_trans (proj2 (preference_reads_only_addons w w2 eq_refl)) Hp)
                 (sat_flag_is_allowed_transport h w w2 _ evs Hsat))
  end.
  cbv zeta. fold cmd. rewrite Hspawn.
  cbn [scene add_events add_event set_scene].
  rewrite scene_objects_set, Himp.
  cbn [fst snd scene set_scene add_event add_events trace reports].
  repeat split. rewrite <- !app_assoc. reflexivity.
Qed.

Lemma execute_success_run_witness :
  (execute (linux_host (Exited 3)) (sample_world 1 default_settings)).1
  = Ok (VSet ["FINISHED"]).
Proof.
  pose (h := linux_host (Exited 3)).
  pose (w := sample_world 1 default_settings).
  pose (so1 := scene_objects (scene (isolated w))).
  pose (so2 := (map (set_select false) so1.1 ++ [remeshed_object], so1.2)).
  assert (H1 : active_object (scene w) = Some cube_object) by reflexivity.
  assert (H2 : manifold_check_fails (Some cube_object) (autoflow (scene w))
               = Ok false) by reflexivity.
  assert (H3 : export_scene_obj h
                 (Path.to_string (export_path (mkdtemp h) (name cube_object)))
                 true true (scene_objects (scene (isolated w))) = (Ok tt, so1))
    by reflexivity.
  assert (H4 : get_quadriflow_timeout_from_addon_prefs w = Ok 30%Z)
    by reflexivity.
  assert (H5 : get_quadriflow_path_from_addon_prefs w
               = Ok (Path.of_string "/opt/quadriflow")) by reflexivity.
  assert (H6 : sat_flag_is_allowed h w =
               (Ok true, add_events [EvSpawn ["which"; "minisat"] None;
                                     EvSpawn ["which"; "timeout"] None] w))
    by (vm_compute; reflexivity).
  assert (H7 : spawn h
                 (quadriflow_cmd (Path.of_string "/opt/quadriflow") true
                    (autoflow (scene w))
                    (Path.to_string (export_path (mkdtemp h) (name cube_object)))
                    (Path.to_string (remeshed_path (mkdtemp h) (name cube_object))))
                 (effective_timeout (Some 30%Z)) = Exited 3) by reflexivity.
  assert (H8 : import_scene_obj h
                 (Path.to_string (remeshed_path (mkdtemp h) (name cube_object)))
                 so1 = (Ok tt, so2)) by reflexivity.
  exact (proj1 (execute_success_run h w cube_object so1 so2 30%Z _ true _ 3%Z
                  H1 H2 H3 H4 H5 H6 H7 H8)).
Defined.

Lemma set_scene_objects_same sc : set_scene_objects (scene_objects sc) sc = sc.
Proof. destruct sc. reflexivity. Qed.

(** After the selection was narrowed to some objects, the fix-up at the end
    of [execute] puts the scene back as it was, when nothing new has come
    and the identities are distinct. *)
Lemma fixed_scene_restores sc objs :
  NoDup (map oid (objects sc)) ->
  fixed_scene (objects sc) (List.filter select (objects sc))
    (select_only_objects_in_scene objs sc) = sc.
Proof.
  intros Hnd. unfold fixed_scene, get_objects_in_scene.
  rewrite no_new_objects
    by (cbn; rewrite map_map; reflexivity).
  unfold select_only_objects_in_scene, set_objects. cbn.
  rewrite reselect_twice by reflexivity.
  rewrite (reselect_recorded _ Hnd). destruct sc. reflexivity.
Qed.

(** X16: a launch that fails in a way [execute] catches (a permission
    error, or a subprocess error such as the timeout running out).  If the
    exporter has left the scene alone and the objects' identities are
    distinct, [execute] returns [FINISHED], with exactly one error report
    added, nothing imported, the temporary directory removed, and the scene
    (objects, selection flags, active object) exactly as before the run. *)
Theorem execute_caught_failure_run h w o t p b evs e :
  let d := mkdtemp h in
  let af := autoflow (scene w) in
  let ip := Path.to_string (export_path d (name o)) in
  let op := Path.to_string (remeshed_path d (name o)) in
  let cmd := quadriflow_cmd p b af ip op in
  active_object (scene w) = Some o ->
  manifold_check_fails (Some o) af = Ok false ->
  export_scene_obj h ip true true (scene_objects (scene (isolated w)))
    = (Ok tt, scene_objects (scene (isolated w))) ->
  get_quadriflow_timeout_from_addon_prefs w = Ok t ->
  get_quadriflow_path_from_addon_prefs w = Ok p ->
  sat_flag_is_allowed h w = (Ok b, add_events evs w) ->
  spawn h cmd (effective_timeout (Some t)) = LaunchFailed e ->
  isinstance_PermissionError e || isinstance_SubprocessError e = true ->
  NoDup (map oid (objects (scene w))) ->
  (execute h w).1 = Ok (VSet ["FINISHED"]) /\
  scene (execute h w).2 = scene w /\
  reports (execute h w).2 =
    reports w ++ [(["ERROR"],
                   if isinstance_PermissionError e then msg_permission_error
                   else msg_subprocess_error)] /\
  trace (execute h w).2 =
    trace w ++
    [EvTempDirCreate d; EvPrint msg_exporting; EvExport ip true true;
     EvPrint msg_remeshing] ++ evs ++
    [EvSpawn cmd (effective_timeout (Some t)); EvPrintExn e;
     EvTempDirCleanup d].
Proof.
  intros d af ip op cmd Ha Hm Hexp Ht Hp Hsat Hspawn Hcaught Hnd.
  rewrite execute_run by (rewrite Ha; exact Hm).
  rewrite Ha. fold d af.
  rewrite (export_remesh_import_run h o af d). cbv zeta. fold ip op.
  change (scene (add_event (EvTempDirCreate d) (isolated w)))
    with (scene (isolated w)).
  rewrite Hexp, set_scene_objects_same.
  match goal with
  | |- context [get_quadriflow_timeout_from_addon_prefs ?w'] =>
      rewrite (proj1 (preference_reads_only_addons w w' eq_refl)), Ht
  end.
  match goal with
  | |- context [try_remesh_import h ip op af (Some t) ?w2] =>
      rewrite (try_remesh_import_run h ip op af (Some t) w2 p b
                 (add_events evs w2)
                 (eq_trans (proj2 (preference_reads_only_addons w w2 eq_refl)) Hp)
                 (sat_flag_is_allowed_transport h w w2 _ evs Hsat))
  end.
  cbv zeta. fold cmd. rewrite Hspawn.
  assert (Hscene : fixed_scene (objects (scene w))
                     (List.filter select (objects (scene w)))
                     (scene (isolated w)) = scene w)
    by (apply fixed_scene_restores, Hnd).
  destruct (isinstance_PermissionError e).
  - cbn [fst snd scene set_scene add_event add_events add_report trace reports].
    rewrite Hscene. repeat split. rewrite <- !app_assoc. reflexivity.
  - cbn in Hcaught. rewrite Hcaught.
    cbn [fst snd scene set_scene add_event add_events add_report trace reports].
    rewrite Hscene. repeat split. rewrite <- !app_assoc. reflexivity.
Qed.

(** X17: a launch that fails in a way [execute] does not catch, such as
    the executable not being found.  The exception leaves [execute]; the
    temporary directory is still removed and nothing is reported, but the
    selection is not put back: the scene stays as the exporter left it, so
    that, if the exporter changed nothing, only the active object is
    selected. *)
Theorem execute_uncaught_failure_run h w o so1 t p b evs e :
  let d := mkdtemp h in
  let af := autoflow (scene w) in
  let ip := Path.to_string (export_path d (name o)) in
  let op := Path.to_string (remeshed_path d (name o)) in
  let cmd := quadriflow_cmd p b af ip op in
  active_object (scene w) = Some o ->
  manifold_check_fails (Some o) af = Ok false ->
  export_scene_obj h ip true true (scene_objects (scene (isolated w)))
    = (Ok tt, so1) ->
  get_quadriflow_timeout_from_addon_prefs w = Ok t ->
  get_quadriflow_path_from_addon_prefs w = Ok p ->
  sat_flag_is_allowed h w = (Ok b, add_events evs w) ->
  spawn h cmd (effective_timeout (Some t)) = LaunchFailed e ->
  isinstance_PermissionError e || isinstance_SubprocessError e = false ->
  (execute h w).1 = Raise e /\
  scene (execute h w).2 = set_scene_objects so1 (scene w) /\
  (so1 = scene_objects (scene (isolated w)) ->
   forall x, In x (objects (scene (execute h w).2)) ->
             select x = obj_in x [o]) /\
  reports (execute h w).2 = reports w /\
  trace (execute h w).2 =
    trace w ++
    [EvTempDirCreate d; EvPrint msg_exporting; EvExport ip true true;
     EvPrint msg_remeshing] ++ evs ++
    [EvSpawn cmd (effective_timeout (Some t)); EvTempDirCleanup d].
Proof.
  intros d af ip op cmd Ha Hm Hexp Ht Hp Hsat Hspawn Hcaught.
  apply orb_false_iff in Hcaught as [Hperm Hsub].
  rewrite execute_run by (rewrite Ha; exact Hm).
  rewrite Ha. fold d af.
  rewrite (export_remesh_import_run h o af d). cbv zeta. fold ip op.
  change (scene (add_event (EvTempDirCreate d) (isolated w)))
    with (scene (isolated w)).
  rewrite Hexp.
  match goal with
  | |- context [get_quadriflow_timeout_from_addon_prefs ?w'] =>
      rewrite (proj1 (preference_reads_only_addons w w' eq_refl)), Ht
  end.
  match goal with
  | |- context [try_remesh_import h ip op af (Some t) ?w2] =>
      rewrite (try_remesh_import_run h ip op af (Some t) w2 p b
                 (add_events evs w2)
                 (eq_trans (proj2 (preference_reads_only_addons w w2 eq_refl)) Hp)
                 (sat_flag_is_allowed_transport h w w2 _ evs Hsat))
  end.
  cbv zeta. fold cmd. rewrite Hspawn, Hperm, Hsub.
  cbn [fst snd scene set_scene add_event add_events trace reports].
  split; [reflexivity|]. split; [reflexivity|]. split; [|split].
  - intros -> x Hx. cbn in Hx. unfold isolated in Hx. cbn in Hx.
    rewrite Ha in Hx. apply in_map_iff in Hx as (y & <- & _). reflexivity.
  - reflexivity.
  - rewrite <- !app_assoc. reflexivity.
Qed.

Lemma execute_caught_failure_run_witness :
  let h := linux_host (LaunchFailed TimeoutExpired) in
  let w := sample_world 1 default_settings in
  (execute h w).1 = Ok (VSet ["FINISHED"]) /\ scene (execute h w).2 = scene w.
Proof.
  intros h w.
  assert (H1 : active_object (scene w) = Some cube_object) by reflexivity.
  assert (H2 : manifold_check_fails (Some cube_object) (autoflow (scene w))
               = Ok false) by reflexivity.
  assert (H3 : export_scene_obj h
                 (Path.to_string (export_path (mkdtemp h) (name cube_object)))
                 true true (scene_objects (scene (isolated w)))
               = (Ok tt, scene_objects (scene (isolated w)))) by reflexivity.
  assert (H4 : get_quadriflow_timeout_from_addon_prefs w = Ok 30%Z)
    by reflexivity.
  assert (H5 : get_quadriflow_path_from_addon_prefs w
               = Ok (Path.of_string "/opt/quadriflow")) by reflexivity.
  assert (H6 : sat_flag_is_allowed h w =
               (Ok true, add_events [EvSpawn ["which"; "minisat"] None;
                                     EvSpawn ["which"; "timeout"] None] w))
    by (vm_compute; reflexivity).
  assert (H7 : spawn h
                 (quadriflow_cmd (Path.of_string "/opt/quadriflow") true
                    (autoflow (scene w))
                    (Path.to_string (export_path (mkdtemp h) (name cube_object)))
                    (Path.to_string (remeshed_path (mkdtemp h) (name cube_object))))
                 (effective_timeout (Some 30%Z)) = LaunchFailed TimeoutExpired)
    by reflexivity.
  assert (H8 : isinstance_PermissionError TimeoutExpired
               || isinstance_SubprocessError TimeoutExpired = true)
    by reflexivity.
  assert (H9 : NoDup (map oid (objects (scene w))))
    by (apply (bool_decide_unpack _); vm_compute; exact I).
  pose proof (execute_caught_failure_run h w cube_object 30%Z _ true _
                TimeoutExpired H1 H2 H3 H4 H5 H6 H7 H8 H9) as (Hr & Hs & _).
  split; [exact Hr | exact Hs].
Defined.

Lemma execute_uncaught_failure_run_witness :
  let h := linux_host (LaunchFailed FileNotFoundError) in
  let w := sample_world 1 default_settings in
  (execute h w).1 = Raise FileNotFoundError /\
  map select (objects (scene (execute h w).2)) = [true; false; false].
Proof.
  intros h w.
  assert (H1 : active_object (scene w) = Some cube_object) by reflexivity.
  assert (H2 : manifold_check_fails (Some cube_object) (autoflow (scene w))
               = Ok false) by reflexivity.
  assert (H3 : export_scene_obj h
                 (Path.to_string (export_path (mkdtemp h) (name cube_object)))
                 true true (scene_objects (scene (isolated w)))
               = (Ok tt, scene_objects (scene (isolated w)))) by reflexivity.
  assert (H4 : get_quadriflow_timeout_from_addon_prefs w = Ok 30%Z)
    by reflexivity.
  assert (H5 : get_quadriflow_path_from_addon_prefs w
               = Ok (Path.of_string "/opt/quadriflow")) by reflexivity.
  assert (H6 : sat_flag_is_allowed h w =
               (Ok true, add_events [EvSpawn ["which"; "minisat"] None;
                                     EvSpawn ["which"; "timeout"] None] w))
    by (vm_compute; reflexivity).
  assert (H7 : spawn h
                 (quadriflow_cmd (Path.of_string "/opt/quadriflow") true
                    (autoflow (scene w))
                    (Path.to_string (export_path (mkdtemp h) (name cube_object)))
                    (Path.to_string (remeshed_path (mkdtemp h) (name cube_object))))
                 (effective_timeout (Some 30%Z)) = LaunchFailed FileNotFoundError)
    by reflexivity.
  assert (H8 : isinstance_PermissionError FileNotFoundError
               || isinstance_SubprocessError FileNotFoundError = false)
    by reflexivity.
  pose proof (execute_uncaught_failure_run h w cube_object _ 30%Z _ true _
                FileNotFoundError H1 H2 H3 H4 H5 H6 H7 H8) as (Hr & Hs & _).
  split; [exact Hr|]. rewrite Hs. reflexivity.
Defined.

(** ** The panel and the dialog *)

Lemma remeshable_passes_poll w :
  object_can_be_remeshed (active_object (scene w)) = true -> poll w = true.
Proof.
  unfold poll, object_can_be_remeshed, object_has_properties.
  destruct (active_object (scene w)) as [o|]; [|discriminate].
  cbn. intros H. apply andb_true_iff in H as [H _]. exact H.
Qed.

(** X18: the panel and the dialog's check agree.  The panel draws its
    settings first and raises if the SAT check of the settings raises.
    Otherwise the panel and the check raise together on a stored path that
    is no string, or else the caption and the icon of the trigger and the
    message of the dialog stand for the same failing check, the trigger is
    enabled exactly when the message is empty, and then [poll] holds too. *)
Theorem panel_trigger_agrees_with_dialog h layout w :
  match (sat_flag_is_allowed h w).1 with
  | Raise e => (tools_panel_draw h layout w).1 = Raise e
  | Ok allowed =>
      match (tools_panel_draw h layout w).1, pre_execution_error_message h w with
      | Ok (layout', col), Ok msg =>
          layout' = layout ++ ["min_cost_flow"; "sharp_preserving"] ++
                    (if allowed then ["flip_removal"] else []) ++
                    ["require_manifold"; "resolution"] /\
          op_idname (col_operator col) = "autoflow.remesh" /\
          In (op_text (col_operator col), op_icon (col_operator col), msg,
              col_enabled col)
            [(Some "Set QuadriFlow path", "ERROR", msg_path_unset, false);
             (Some "QuadriFlow path not found", "ERROR", msg_path_not_found,
              false);
             (Some "Select a mesh in object mode", "ERROR", msg_no_mesh, false);
             (Some "Autoflow is for Linux or Windows", "ERROR", msg_os, false);
             (None, "FILE_TICK", "", true)] /\
          (col_enabled col = true -> poll w = true)
      | Raise e, Raise e' => e = e'
      | _, _ => False
      end
  end.
Proof.
  rewrite tools_panel_draw_eq, add_quadriflow_args_to_layout_eq.
  unfold pre_execution_error_message.
  destruct ((sat_flag_is_allowed h w).1) as [allowed|e]; [|reflexivity].
  cbn [fst].
  destruct (quadriflow_path_pref_is_set w) as [[]|e]; [| |reflexivity].
  - destruct (get_quadriflow_path_from_addon_prefs w) as [p|e]; [|reflexivity].
    destruct (path_exists h (Path.to_string p)); cbn [negb].
    + destruct (object_can_be_remeshed (active_object (scene w))) eqn:Hobj;
        cbn [negb].
      * destruct (autoflow_is_compatible_with_os h); cbn [negb].
        -- repeat split; [cbn; tauto|]. intros _.
           apply remeshable_passes_poll, Hobj.
        -- repeat split; [cbn; tauto | discriminate].
      * repeat split; [cbn; tauto | discriminate].
    + repeat split; [cbn; tauto | discriminate].
  - repeat split; [cbn; tauto | discriminate].
Qed.

(** ** When the path counts as set *)

Lemma parse_root_cases s :
  Path.parse_root s = "" \/ Path.parse_root s = "/" \/ Path.parse_root s = "//".
Proof.
  destruct s as [|c s]; [left; reflexivity|].
  destruct c as [[] [] [] [] [] [] [] []]; try (left; reflexivity).
  destruct s as [|c2 s]; [right; left; reflexivity|].
  destruct c2 as [[] [] [] [] [] [] [] []]; try (right; left; reflexivity).
  destruct s as [|c3 s]; [right; right; reflexivity|].
  destruct c3 as [[] [] [] [] [] [] [] []]; auto.
Qed.

Lemma concat_parts_not_dot x rest :
  Path.is_part x = true -> String.concat "/" (x :: rest) <> ".".
Proof.
  unfold Path.is_part. intros Hx. apply andb_true_iff in Hx as [He Hd].
  apply negb_true_iff, String.eqb_neq in He, Hd.
  destruct rest as [|y rest]; [exact Hd|].
  cbn [String.concat]. intros Heq.
  apply (f_equal String.length) in Heq.
  rewrite string_app_length, string_app_length in Heq.
  pose proof (nonempty_length x He). cbn in Heq. lia.
Qed.

(** A path prints as the dot exactly when it has neither root nor parts. *)
Lemma to_string_dot_iff s :
  Path.to_string (Path.of_string s) = "." <->
  Path.of_string s = Path.of_string "".
Proof.
  split; [|intros ->; reflexivity].
  unfold Path.of_string, Path.to_string. cbn [Path.parts Path.root].
  change (Path.parse_root "") with "".
  change (filter (fun x => Path.is_part x = true) (Path.split_slash "" ""))
    with (@nil string).
  destruct (filter _ (Path.split_slash s "")) as [|x rest] eqn:Hps.
  - destruct (parse_root_cases s) as [-> | [-> | ->]];
      [reflexivity | discriminate | discriminate].
  - assert (Hx : Path.is_part x = true).
    { assert (Hin : x ∈ filter (fun x => Path.is_part x = true)
                          (Path.split_slash s ""))
        by (rewrite Hps; left).
      apply list_elem_of_filter in Hin as [Hin _]. exact Hin. }
    intros Heq. exfalso.
    destruct (parse_root_cases s) as [Hr | [Hr | Hr]]; rewrite Hr in Heq.
    + exact (concat_parts_not_dot x rest Hx Heq).
    + discriminate.
    + discriminate.
Qed.

(** X19: a stored QuadriFlow path counts as set exactly when, taken as a
    path, it does not print as the dot: the empty string, [.] and [./] all
    count as not set. *)
Theorem path_pref_is_set_iff w s :
  get_addon_preference w package "quadriflow_path" (VStr "") = VStr s ->
  quadriflow_path_pref_is_set w =
    Ok (negb (String.eqb (Path.to_string (Path.of_string s)) ".")) /\
  (s = "" \/ s = "." \/ s = "./" -> quadriflow_path_pref_is_set w = Ok false).
Proof.
  intros Hs.
  assert (Hset : quadriflow_path_pref_is_set w =
                 Ok (negb (String.eqb (Path.to_string (Path.of_string s)) "."))).
  { unfold quadriflow_path_pref_is_set, get_quadriflow_path_from_addon_prefs.
    rewrite Hs. cbn [py_Path]. f_equal. f_equal.
    destruct (String.eqb_spec (Path.to_string (Path.of_string s)) ".") as [Hd|Hd].
    - apply bool_decide_eq_true, to_string_dot_iff, Hd.
    - apply bool_decide_eq_false. intros Heq. apply Hd, to_string_dot_iff, Heq. }
  split; [exact Hset|].
  intros [-> | [-> | ->]]; rewrite Hset; reflexivity.
Qed.

Lemma path_pref_is_set_iff_witness :
  let w := {| addons := <[package := <["quadriflow_path" := VStr "./"]> ∅]> ∅;
              scene := scene fresh_world; reports := []; trace := [] |} in
  quadriflow_path_pref_is_set w = Ok false.
Proof.
  intros w.
  exact (proj2 (path_pref_is_set_iff w "./" eq_refl) (or_intror (or_intror eq_refl))).
Defined.

(** ** When the SAT check raises *)

(** X20: the SAT check raises exactly on Linux, when launching [which]
    fails with something other than [CalledProcessError], for [minisat] or,
    after [which minisat] has exited with status 0, for [timeout]; the
    exception is the one of the launch. *)
Theorem sat_flag_is_allowed_raises_iff h w e :
  (sat_flag_is_allowed h w).1 = Raise e <->
  os_is_linux h = true /\ e <> CalledProcessError /\
  (spawn h ["which"; "minisat"] None = LaunchFailed e \/
   (spawn h ["which"; "minisat"] None = Exited 0 /\
    spawn h ["which"; "timeout"] None = LaunchFailed e)).
Proof.
  unfold sat_flag_is_allowed, mbind, M_bind.
  destruct (os_is_linux h); [|split; [discriminate | intros [[=] _]]].
  rewrite unix_executable_is_installed_eq.
  destruct (spawn h ["which"; "minisat"] None) as [c1|e1].
  - destruct (Z.eqb_spec c1 0) as [->|Hc1].
    + rewrite unix_executable_is_installed_eq.
      destruct (spawn h ["which"; "timeout"] None) as [c2|e2].
      * cbn. split; [discriminate|].
        intros (_ & _ & [[=] | [_ [=]]]).
      * destruct e2; cbn;
          (split;
           [ intros [= <-]; repeat split; try discriminate; right; auto
           | intros (_ & Hne & [[=] | [_ [= <-]]]);
             first [reflexivity | contradiction] ]).
    + cbn. split; [discriminate|].
      intros (_ & _ & [[=] | [[= ->] _]]). contradiction.
  - destruct e1; cbn;
      (split;
       [ intros [= <-]; repeat split; try discriminate; left; reflexivity
       | intros (_ & Hne & [[= <-] | [[=] _]]);
         first [reflexivity | contradiction] ]).
Qed.
